(** * The instruction-cycle machine of the CPU simulator (class [CPU] of
    colored.py), embedded as pure functions over an explicit machine state.

    Python integers are unbounded, so register values, memory cells,
    addresses and the program counter are [Z].  The register file is a
    Python dict keyed by strings and the memory a dict keyed by integers:
    they are finite maps.  The two change sets are Python sets.

    Instruction text: a Rocq [string] is read as the sequence of its
    character codes, that is, as Python text whose code points lie below
    256 (ASCII and Latin-1).  The built-ins are modelled on that whole
    range.  Text with code points from 256 on is outside the model, and so
    are the upper-case forms of U+00B5 and U+00FF, which lie above 255 (see
    [Py.upper]). *)

From Stdlib Require Import ZArith NArith Ascii String List Lia.
From stdpp Require Import base tactics option list gmap strings.

Local Open Scope string_scope.
Local Open Scope Z_scope.

(** ** The Python built-ins used by the machine *)

Module Py.

(** [str.isspace] on one character: the blanks [str.split()] cuts at and
    [str.strip()] removes.  Below 256 these are the codes 9 to 13, 28 to 32,
    133 (U+0085) and 160 (U+00A0). *)
Definition isspace (a : ascii) : bool :=
  let n := N_of_ascii a in
  (N.leb 9 n && N.leb n 13) || (N.leb 28 n && N.leb n 32)
  || N.eqb n 133 || N.eqb n 160.

(** The blanks [int()] skips around a literal: C's [isspace] on the ASCII
    characters (9 to 13 and 32, not 28 to 31), and the non-ASCII blanks
    U+0085 and U+00A0, which [int()] turns into spaces before it parses. *)
Definition c_isspace (a : ascii) : bool :=
  let n := N_of_ascii a in
  (N.leb 9 n && N.leb n 13) || N.eqb n 32 || N.eqb n 133 || N.eqb n 160.

(** [s.split()]: the maximal runs of non-blank characters, in order.
    [split_from s] returns the run that starts at the head of [s] (empty when
    [s] starts with a blank or is empty) and the runs after it. *)
Definition push_token (tok : string) (rest : list string) : list string :=
  match tok with
  | EmptyString => rest
  | _ => tok :: rest
  end.

Fixpoint split_from (s : string) : string * list string :=
  match s with
  | EmptyString => (EmptyString, [])
  | String a s' =>
      let '(tok, rest) := split_from s' in
      if isspace a then (EmptyString, push_token tok rest)
      else (String a tok, rest)
  end.

Definition split (s : string) : list string :=
  let '(tok, rest) := split_from s in push_token tok rest.

(** [s.upper()].  A character with a one-character upper-case form below
    256 is mapped by [upper_char]: the ASCII letters a to z and the Latin-1
    letters U+00E0 to U+00FE (U+00F7, the division sign, is no letter).
    U+00DF becomes the two letters SS.  The upper-case forms of U+00B5 and
    U+00FF are U+039C and U+0178, which no [string] can hold: these two
    characters are left as they are (a token that holds one of them is no
    known opcode either way). *)
Definition upper_char (a : ascii) : ascii :=
  let n := N_of_ascii a in
  if N.leb 97 n && N.leb n 122 then ascii_of_N (n - 32)
  else if N.leb 224 n && N.leb n 254 && negb (N.eqb n 247)
  then ascii_of_N (n - 32)
  else a.

Fixpoint upper (s : string) : string :=
  match s with
  | EmptyString => EmptyString
  | String a s' =>
      if N.eqb (N_of_ascii a) 223 then String "S" (String "S" (upper s'))
      else String (upper_char a) (upper s')
  end.

(** [s.startswith(p)]. *)
Fixpoint startswith (p s : string) : bool :=
  match p, s with
  | EmptyString, _ => true
  | String a p', String b s' => if Ascii.eqb a b then startswith p' s' else false
  | String _ _, EmptyString => false
  end.

(** Truth value of an attribute that holds [None] or a string. *)
Definition truthy (o : option string) : bool :=
  match o with
  | None => false
  | Some EmptyString => false
  | Some _ => true
  end.

(** The two bases [int] is called with: [int(s)] and [int(s, 16)]. *)
Inductive base := Dec | Hex.

Definition radix (b : base) : Z :=
  match b with Dec => 10 | Hex => 16 end.

(** Value of a character as a digit in bases up to 36.  Below 256 only
    the ASCII digits and letters have one. *)
Definition digit_value (a : ascii) : option Z :=
  let n := N_of_ascii a in
  if N.leb 48 n && N.leb n 57 then Some (Z.of_N n - 48)
  else if N.leb 97 n && N.leb n 122 then Some (Z.of_N n - 87)
  else if N.leb 65 n && N.leb n 90 then Some (Z.of_N n - 55)
  else None.

Definition digit_in (b : base) (a : ascii) : option Z :=
  match digit_value a with
  | Some d => if d <? radix b then Some d else None
  | None => None
  end.

Fixpoint all_blank (s : string) : bool :=
  match s with
  | EmptyString => true
  | String a s' => c_isspace a && all_blank s'
  end.

Fixpoint lstrip (s : string) : string :=
  match s with
  | String a s' => if c_isspace a then lstrip s' else s
  | EmptyString => EmptyString
  end.

(** The digits of a literal, after its first digit: single underscores may
    separate digits, the literal may not end in an underscore, and only
    blanks may follow the last digit. *)
Fixpoint digits (b : base) (acc : Z) (after_underscore : bool) (s : string)
  : option Z :=
  match s with
  | EmptyString => if after_underscore then None else Some acc
  | String a s' =>
      if Ascii.eqb a "_" then
        if after_underscore then None else digits b acc true s'
      else
        match digit_in b a with
        | Some d => digits b (acc * radix b + d) false s'
        | None =>
            if after_underscore then None
            else if all_blank s then Some acc else None
        end
  end.

Definition sign_of (s : string) : bool * string :=
  match s with
  | String "+" s' => (false, s')
  | String "-" s' => (true, s')
  | _ => (false, s)
  end.

(** With base 16 a literal may carry the prefix [0x] or [0X], and one
    underscore may follow the prefix. *)
Definition skip_prefix (b : base) (s : string) : string :=
  match b, s with
  | Hex, String "0" (String "x" s') | Hex, String "0" (String "X" s') =>
      match s' with
      | String "_" s'' => s''
      | _ => s'
      end
  | _, _ => s
  end.

(** [int(s)] and [int(s, 16)]; [None] stands for [ValueError].  (The
    limit that recent interpreters put on the number of decimal digits is a
    run-time setting and is not modelled.) *)
Definition int (b : base) (s : string) : option Z :=
  let '(negative, s1) := sign_of (lstrip s) in
  match skip_prefix b s1 with
  | EmptyString => None
  | String a s2 =>
      match digit_in b a with
      | None => None
      | Some d =>
          match digits b d false s2 with
          | Some n => Some (if negative then - n else n)
          | None => None
          end
      end
  end.

(** [l[i]] on a list: negative indices count from the end; [None] stands
    for [IndexError]. *)
Definition index {A} (l : list A) (i : Z) : option A :=
  let n := Z.of_nat (length l) in
  if (0 <=? i) && (i <? n) then l !! Z.to_nat i
  else if (- n <=? i) && (i <? 0) then l !! Z.to_nat (n + i)
  else None.

End Py.

(** ** The machine state *)

(** The dict [control_signals]: one flag per stage. *)
Record signals := mkSignals {
  sig_fetch : bool;
  sig_decode : bool;
  sig_execute : bool;
  sig_memory : bool;
  sig_writeback : bool
}.

Definition all_off : signals := mkSignals false false false false false.
Definition fetch_on : signals := mkSignals true false false false false.
Definition decode_on : signals := mkSignals false true false false false.
Definition execute_on : signals := mkSignals false false true false false.

(** The attributes of a [CPU] object.  [opcode] and [operands] are created
    by [decode] and removed with [delattr]: [None] is the absent attribute. *)
Record CPU := mkCPU {
  registers : gmap string Z;
  memory : gmap Z Z;
  pc : Z;
  ir : option string;
  instructions : list string;
  alu_output : Z;
  control_signals : signals;
  halted : bool;
  changed_registers : gset string;
  changed_memory : gset Z;
  opcode : option string;
  operands : option (list string)
}.

Definition set_registers (f : gmap string Z → gmap string Z) (c : CPU) : CPU :=
  mkCPU (f (registers c)) (memory c) (pc c) (ir c) (instructions c)
    (alu_output c) (control_signals c) (halted c) (changed_registers c)
    (changed_memory c) (opcode c) (operands c).

Definition set_memory (f : gmap Z Z → gmap Z Z) (c : CPU) : CPU :=
  mkCPU (registers c) (f (memory c)) (pc c) (ir c) (instructions c)
    (alu_output c) (control_signals c) (halted c) (changed_registers c)
    (changed_memory c) (opcode c) (operands c).

Definition set_pc (v : Z) (c : CPU) : CPU :=
  mkCPU (registers c) (memory c) v (ir c) (instructions c)
    (alu_output c) (control_signals c) (halted c) (changed_registers c)
    (changed_memory c) (opcode c) (operands c).

Definition set_ir (v : option string) (c : CPU) : CPU :=
  mkCPU (registers c) (memory c) (pc c) v (instructions c)
    (alu_output c) (control_signals c) (halted c) (changed_registers c)
    (changed_memory c) (opcode c) (operands c).

Definition set_instructions (v : list string) (c : CPU) : CPU :=
  mkCPU (registers c) (memory c) (pc c) (ir c) v
    (alu_output c) (control_signals c) (halted c) (changed_registers c)
    (changed_memory c) (opcode c) (operands c).

Definition set_alu_output (v : Z) (c : CPU) : CPU :=
  mkCPU (registers c) (memory c) (pc c) (ir c) (instructions c)
    v (control_signals c) (halted c) (changed_registers c)
    (changed_memory c) (opcode c) (operands c).

Definition set_control_signals (f : signals → signals) (c : CPU) : CPU :=
  mkCPU (registers c) (memory c) (pc c) (ir c) (instructions c)
    (alu_output c) (f (control_signals c)) (halted c) (changed_registers c)
    (changed_memory c) (opcode c) (operands c).

Definition set_halted (v : bool) (c : CPU) : CPU :=
  mkCPU (registers c) (memory c) (pc c) (ir c) (instructions c)
    (alu_output c) (control_signals c) v (changed_registers c)
    (changed_memory c) (opcode c) (operands c).

Definition set_changed_registers (f : gset string → gset string) (c : CPU) : CPU :=
  mkCPU (registers c) (memory c) (pc c) (ir c) (instructions c)
    (alu_output c) (control_signals c) (halted c) (f (changed_registers c))
    (changed_memory c) (opcode c) (operands c).

Definition set_changed_memory (f : gset Z → gset Z) (c : CPU) : CPU :=
  mkCPU (registers c) (memory c) (pc c) (ir c) (instructions c)
    (alu_output c) (control_signals c) (halted c) (changed_registers c)
    (f (changed_memory c)) (opcode c) (operands c).

Definition set_opcode (v : option string) (c : CPU) : CPU :=
  mkCPU (registers c) (memory c) (pc c) (ir c) (instructions c)
    (alu_output c) (control_signals c) (halted c) (changed_registers c)
    (changed_memory c) v (operands c).

Definition set_operands (v : option (list string)) (c : CPU) : CPU :=
  mkCPU (registers c) (memory c) (pc c) (ir c) (instructions c)
    (alu_output c) (control_signals c) (halted c) (changed_registers c)
    (changed_memory c) (opcode c) v.

Definition memory_on (s : signals) : signals :=
  mkSignals (sig_fetch s) (sig_decode s) (sig_execute s) true (sig_writeback s).

Definition writeback_on (s : signals) : signals :=
  mkSignals (sig_fetch s) (sig_decode s) (sig_execute s) (sig_memory s) true.

(** ** Methods as state transformers that may raise

    A method body runs on the object and either finishes with a value or
    raises; in both cases the attribute writes made so far stay on the
    object, so both outcomes carry the state. *)

Inductive exn := AttributeError | ValueError | KeyError | IndexError.

Inductive res (A : Type) :=
| Ok (a : A) (c : CPU)
| Raise (e : exn) (c : CPU).
Arguments Ok {A} a c.
Arguments Raise {A} e c.

Definition state_of {A} (r : res A) : CPU :=
  match r with Ok _ c => c | Raise _ c => c end.

Definition value_of {A} (r : res A) : option A :=
  match r with Ok a _ => Some a | Raise _ _ => None end.

Definition M (A : Type) : Type := CPU → res A.

Definition ret {A} (a : A) : M A := fun c => Ok a c.

Definition bind {A B} (m : M A) (k : A → M B) : M B :=
  fun c => match m c with
           | Ok a c' => k a c'
           | Raise e c' => Raise e c'
           end.

Definition raise {A} (e : exn) : M A := fun c => Raise e c.

Definition modify (f : CPU → CPU) : M unit := fun c => Ok tt (f c).

Definition read {A} (f : CPU → A) : M A := fun c => Ok (f c) c.

Definition or_raise {A} (e : exn) (o : option A) : M A :=
  match o with Some a => ret a | None => raise e end.

Declare Scope py_scope.
Delimit Scope py_scope with py.
Notation "'do' x <~ m ;; k" := (bind m (fun x => k))
  (at level 10, x name, m at level 99, k at level 200) : py_scope.
Notation "'exec' m ;; k" := (bind m (fun _ => k))
  (at level 10, m at level 99, k at level 200) : py_scope.

(** [a, b = l] and [a, b, c = l]: [ValueError] unless the length fits. *)
Definition unpack2 (l : list string) : M (string * string) :=
  match l with
  | [a; b] => ret (a, b)
  | _ => raise ValueError
  end.

Definition unpack3 (l : list string) : M (string * string * string) :=
  match l with
  | [a; b; d] => ret (a, b, d)
  | _ => raise ValueError
  end.

(** [self.operands]: [AttributeError] when the attribute is absent. *)
Definition get_operands : M (list string) :=
  fun c => or_raise AttributeError (operands c) c.

(** [self.registers[r]] as a read: [KeyError] on a missing key. *)
Definition read_register (r : string) : M Z :=
  fun c => or_raise KeyError (registers c !! r) c.

(** [int(addr, 16) if addr.startswith('0x') else int(addr)]. *)
Definition parse_addr (addr : string) : option Z :=
  if Py.startswith "0x" addr then Py.int Py.Hex addr else Py.int Py.Dec addr.

Local Open Scope py_scope.

(** ** The methods of [CPU] *)

(** [f"R{i}" for i in range(8)] and [range(0, 256, 4)]. *)
Definition register_names : list string :=
  ["R0"; "R1"; "R2"; "R3"; "R4"; "R5"; "R6"; "R7"].

Definition memory_addresses : list Z :=
  map (fun i => 4 * Z.of_nat i) (seq 0 64).

Definition zeroed {K} `{Countable K} (keys : list K) : gmap K Z :=
  list_to_map (map (fun k => (k, 0)) keys).

(** [reset] assigns every attribute except [opcode] and [operands], which it
    neither creates nor deletes. *)
Definition reset (c : CPU) : CPU :=
  mkCPU (zeroed register_names) (zeroed memory_addresses) 0 None []
    0 all_off false ∅ ∅ (opcode c) (operands c).

(** The object before [__init__] runs has no attribute at all; [__init__]
    calls [reset]. *)
Definition blank : CPU :=
  mkCPU ∅ ∅ 0 None [] 0 all_off false ∅ ∅ None None.

Definition new_CPU : CPU := reset blank.

Definition load_program (program : list string) (c : CPU) : CPU :=
  mkCPU (registers c) (memory c) 0 None program
    (alu_output c) (control_signals c) false ∅ ∅ None None.

Definition fetch : M bool :=
  do n <~ read (fun c => Z.of_nat (length (instructions c))) ;;
  do p <~ read pc ;;
  if p >=? n then
    exec modify (set_halted true) ;;
    ret false
  else
    exec modify (set_control_signals (fun _ => fetch_on)) ;;
    do line <~ (fun c => or_raise IndexError (Py.index (instructions c) p) c) ;;
    exec modify (set_ir (Some line)) ;;
    ret true.

Definition decode : M bool :=
  exec modify (set_control_signals (fun _ => decode_on)) ;;
  do i <~ read ir ;;
  if negb (Py.truthy i) then ret false
  else
    let parts := Py.split (default "" i) in
    do first <~ or_raise IndexError (parts !! 0%nat) ;;
    exec modify (set_opcode (Some (Py.upper first))) ;;
    exec modify (set_operands
                   (Some (if (1 <? length parts)%nat then drop 1 parts else []))) ;;
    ret true.

(** How the [try] block of [execute] is left when nothing is raised: by
    falling through to the common tail, or by the [return False] of HALT. *)
Inductive flow := Fallthrough | ReturnFalse.

Definition alu (f : Z → Z → Z) : M flow :=
  do ops <~ get_operands ;;
  do t <~ unpack3 ops ;;
  let '(rd, rs1, rs2) := t in
  do v1 <~ read_register rs1 ;;
  do v2 <~ read_register rs2 ;;
  exec modify (set_alu_output (f v1 v2)) ;;
  do out <~ read alu_output ;;
  exec modify (set_registers <[rd := out]>) ;;
  exec modify (set_changed_registers (fun s => {[rd]} ∪ s)) ;;
  ret Fallthrough.

Definition exec_LOAD : M flow :=
  do ops <~ get_operands ;;
  do t <~ unpack2 ops ;;
  let '(rd, addr) := t in
  do addr <~ or_raise ValueError (parse_addr addr) ;;
  exec modify (set_control_signals memory_on) ;;
  do v <~ read (fun c => default 0 (memory c !! addr)) ;;
  exec modify (set_registers <[rd := v]>) ;;
  exec modify (set_changed_registers (fun s => {[rd]} ∪ s)) ;;
  ret Fallthrough.

Definition exec_STORE : M flow :=
  do ops <~ get_operands ;;
  do t <~ unpack2 ops ;;
  let '(rs, addr) := t in
  do addr <~ or_raise ValueError (parse_addr addr) ;;
  exec modify (set_control_signals memory_on) ;;
  do v <~ read_register rs ;;
  exec modify (set_memory <[addr := v]>) ;;
  exec modify (set_changed_memory (fun s => {[addr]} ∪ s)) ;;
  ret Fallthrough.

Definition exec_MOV : M flow :=
  do ops <~ get_operands ;;
  do t <~ unpack2 ops ;;
  let '(rd, imm) := t in
  do v <~ or_raise ValueError (Py.int Py.Dec imm) ;;
  exec modify (set_registers <[rd := v]>) ;;
  exec modify (set_changed_registers (fun s => {[rd]} ∪ s)) ;;
  ret Fallthrough.

Definition exec_JUMP : M flow :=
  do ops <~ get_operands ;;
  do addr <~ or_raise IndexError (ops !! 0%nat) ;;
  do addr <~ or_raise ValueError (parse_addr addr) ;;
  exec modify (set_pc (addr - 1)) ;;
  ret Fallthrough.

Definition exec_BEQ : M flow :=
  do ops <~ get_operands ;;
  do t <~ unpack3 ops ;;
  let '(rs1, rs2, addr) := t in
  do addr <~ or_raise ValueError (parse_addr addr) ;;
  do v1 <~ read_register rs1 ;;
  do v2 <~ read_register rs2 ;;
  if v1 =? v2 then
    exec modify (set_pc (addr - 1)) ;;
    ret Fallthrough
  else ret Fallthrough.

(** The [if]/[elif] chain on [self.opcode] inside the [try] block. *)
Definition dispatch (op : string) : M flow :=
  if String.eqb op "ADD" then alu Z.add
  else if String.eqb op "SUB" then alu Z.sub
  else if String.eqb op "LOAD" then exec_LOAD
  else if String.eqb op "STORE" then exec_STORE
  else if String.eqb op "MOV" then exec_MOV
  else if String.eqb op "JUMP" then exec_JUMP
  else if String.eqb op "BEQ" then exec_BEQ
  else if String.eqb op "NOP" then ret Fallthrough
  else if String.eqb op "HALT" then
    exec modify (set_halted true) ;;
    ret ReturnFalse
  else raise ValueError.

(** [execute] catches every exception of the [try] block, so it always
    returns: the final state and the returned boolean. *)
Definition execute (c : CPU) : CPU * bool :=
  let c1 := set_control_signals (fun _ => execute_on) c in
  match opcode c1 with
  | None => (c1, false)
  | Some op =>
      let c2 := set_changed_memory (fun _ => ∅)
                  (set_changed_registers (fun _ => ∅) c1) in
      match dispatch op c2 with
      | Ok Fallthrough c3 =>
          let c4 := set_control_signals writeback_on c3 in
          (set_pc (pc c4 + 1) c4, true)
      | Ok ReturnFalse c3 => (c3, false)
      | Raise _ c3 => (set_halted true c3, false)
      end
  end.

(** ** The part of the driver that touches the machine

    [CPUSimulatorGUI.step] and [CPUSimulatorGUI.update_pc], reduced to what
    their own statements do to the [CPU] object: the state below is the one
    the object is in when the method reaches its closing [update_display]
    call (on a halted machine [step] returns before that call, so there it
    is the state when [step] ends).  Logging and display are left out; the
    display refresh writes the program-counter spin box, and the toolkit
    may then call [update_pc] back through the [valueChanged] signal: that
    callback is a separate [update_pc] call, not part of these functions. *)
Module CPUSimulatorGUI.

Definition step (c : CPU) : CPU :=
  if halted c then c
  else
    match ir c with
    | None => state_of (fetch c)
    | Some _ =>
        match opcode c with
        | None => state_of (decode c)
        | Some _ => set_operands None (set_opcode None (fst (execute c)))
        end
    end.

Definition update_pc (value : Z) (c : CPU) : CPU :=
  if (0 <=? value) && (value <? Z.of_nat (length (instructions c))) then
    set_operands None (set_opcode None (set_ir None (set_pc value c)))
  else c.

End CPUSimulatorGUI.

(** The machine states reachable through the methods of [CPU]. *)
Inductive reachable : CPU → Prop :=
| reach_new : reachable new_CPU
| reach_reset c : reachable c → reachable (reset c)
| reach_load c p : reachable c → reachable (load_program p c)
| reach_fetch c : reachable c → reachable (state_of (fetch c))
| reach_decode c : reachable c → reachable (state_of (decode c))
| reach_execute c : reachable c → reachable (fst (execute c)).

(** Running one instruction cycle on a loaded machine. *)
Definition cycle (c : CPU) : CPU :=
  fst (execute (state_of (decode (state_of (fetch c))))).

Definition sample_program : list string :=
  ["MOV R1 10"; "MOV R2 20"; "ADD R3 R1 R2"; "STORE R3 0x100";
   "LOAD R4 0x100"; "SUB R5 R4 R1"; "BEQ R5 R2 8"; "MOV R6 99";
   "HALT"; "MOV R6 42"].

Definition after_sample : CPU :=
  Nat.iter 8 cycle (load_program sample_program new_CPU).

(** ** Sample machines and auxiliary predicates *)

(** A JUMP, a taken and a non-taken BEQ, and a MOV, each from [pc = 40]. *)
Definition at_pc40 (op : string) (args : list string) : CPU :=
  set_operands (Some args) (set_opcode (Some op)
    (set_registers <["R2" := 7]> (set_pc 40 new_CPU))).

(** Two registers at the edge of the 32-bit signed range. *)
Definition at_int_max (op : string) : CPU :=
  set_operands (Some ["R3"; "R1"; "R2"]) (set_opcode (Some op)
    (set_registers (fun m => <["R1" := 2147483647]> (<["R2" := -2147483648]> m))
       new_CPU)).

(** A machine about to execute [op] on the operand tokens [args]. *)
Definition decoded (op : string) (args : list string) (c : CPU) : CPU :=
  set_operands (Some args) (set_opcode (Some op) c).

(** The names an instruction of the register-writing group is known by. *)
Definition writes_register (op : string) : Prop :=
  op = "ADD" \/ op = "SUB" \/ op = "MOV" \/ op = "LOAD".

(** A machine whose change sets are left over from an earlier instruction. *)
Definition stale_sets (op : string) (args : list string) : CPU :=
  decoded op args
    (set_changed_memory (fun _ => {[8]})
       (set_changed_registers (fun _ => {["R7"]}) new_CPU)).

(** The opcodes [execute] has a branch for. *)
Definition known_opcodes : list string :=
  ["ADD"; "SUB"; "MOV"; "LOAD"; "STORE"; "JUMP"; "BEQ"; "NOP"; "HALT"].

(** The machine after running a two-line program to its end: the third
    [fetch] finds no instruction and halts, the decoded ADD is still there. *)
Definition ran_off_end : CPU :=
  state_of (fetch (cycle (cycle
    (load_program ["MOV R1 5"; "ADD R1 R1 R1"] new_CPU)))).

(** The machine after one cycle of the one-line program [MOV R9 5]. *)
Definition after_mov_r9 : CPU := cycle (load_program ["MOV R9 5"] new_CPU).

(** A machine that has fetched and decoded [MOV R1 5]. *)
Definition decoded_mov : CPU :=
  state_of (decode (state_of (fetch (load_program ["MOV R1 5"] new_CPU)))).

(** The operand failures [execute] detects, opcode by opcode: a tuple
    unpacking of the wrong length, no operand at all for JUMP, a literal
    [int] rejects, a source register that is not a key of the register
    map.  Destination registers are never looked up. *)
Inductive operand_failure (c : CPU) : string → list string → Prop :=
| fail_alu_count op args :
    op = "ADD" \/ op = "SUB" → length args ≠ 3%nat → operand_failure c op args
| fail_alu_source op rd rs1 rs2 :
    op = "ADD" \/ op = "SUB" →
    registers c !! rs1 = None \/ registers c !! rs2 = None →
    operand_failure c op [rd; rs1; rs2]
| fail_mov_count args :
    length args ≠ 2%nat → operand_failure c "MOV" args
| fail_mov_literal rd imm :
    Py.int Py.Dec imm = None → operand_failure c "MOV" [rd; imm]
| fail_load_count args :
    length args ≠ 2%nat → operand_failure c "LOAD" args
| fail_load_address rd a :
    parse_addr a = None → operand_failure c "LOAD" [rd; a]
| fail_store_count args :
    length args ≠ 2%nat → operand_failure c "STORE" args
| fail_store_address rs a :
    parse_addr a = None → operand_failure c "STORE" [rs; a]
| fail_store_source rs a :
    registers c !! rs = None → operand_failure c "STORE" [rs; a]
| fail_jump_count :
    operand_failure c "JUMP" []
| fail_jump_address a rest :
    parse_addr a = None → operand_failure c "JUMP" (a :: rest)
| fail_beq_count args :
    length args ≠ 3%nat → operand_failure c "BEQ" args
| fail_beq_address rs1 rs2 a :
    parse_addr a = None → operand_failure c "BEQ" [rs1; rs2; a]
| fail_beq_source rs1 rs2 a :
    registers c !! rs1 = None \/ registers c !! rs2 = None →
    operand_failure c "BEQ" [rs1; rs2; a].

(** What a failed [execute] leaves behind. *)
Definition failed_cleanly (c : CPU) : Prop :=
  halted (fst (execute c)) = true /\
  snd (execute c) = false /\
  pc (fst (execute c)) = pc c /\
  registers (fst (execute c)) = registers c /\
  memory (fst (execute c)) = memory c.

(** The spec's scenario: the one-line program [FOO R1 R2], fetched and
    decoded. *)
Definition decoded_foo : CPU :=
  state_of (decode (state_of (fetch (load_program ["FOO R1 R2"] new_CPU)))).

(** ** Predicates on instruction text *)

(** Every character of [s] is a blank of [str.split()]. *)
Fixpoint only_blanks (s : string) : bool :=
  match s with
  | EmptyString => true
  | String a s' => Py.isspace a && only_blanks s'
  end.

(** No character of [s] is a blank of [str.split()]. *)
Fixpoint no_blank (s : string) : bool :=
  match s with
  | EmptyString => true
  | String a s' => negb (Py.isspace a) && no_blank s'
  end.

(** A token as [str.split()] delivers them: not empty, no blank inside. *)
Definition is_token (s : string) : Prop := s ≠ "" /\ no_blank s = true.

(** The decoded instruction of a state: absent, or an upper-case opcode
    token with operand tokens. *)
Definition decoded_well_formed (c : CPU) : Prop :=
  (opcode c = None /\ operands c = None) \/
  (∃ op args, opcode c = Some op /\ operands c = Some args /\
     is_token op /\ Py.upper op = op /\ Forall is_token args).

(** ** The clean-up of generated program text

    The pure part of [CPUSimulatorGUI.generate_program]: from the text the
    generator answered with to the list of instruction lines handed to
    [load_program]. *)
Module Cleanup.

(** [s.strip()]: the blanks of [str.isspace] removed at both ends. *)
Fixpoint lstrip (s : string) : string :=
  match s with
  | String a s' => if Py.isspace a then lstrip s' else s
  | EmptyString => EmptyString
  end.

Fixpoint rstrip (s : string) : string :=
  match s with
  | EmptyString => EmptyString
  | String a s' =>
      match rstrip s' with
      | EmptyString => if Py.isspace a then EmptyString else String a EmptyString
      | r => String a r
      end
  end.

Definition strip (s : string) : string := rstrip (lstrip s).

(** [s.split(sep)] for a one-character separator: the pieces between the
    separators, empty pieces included; never an empty list. *)
Fixpoint pieces (sep : ascii) (s : string) : string * list string :=
  match s with
  | EmptyString => (EmptyString, [])
  | String a s' =>
      let '(piece, rest) := pieces sep s' in
      if Ascii.eqb a sep then (EmptyString, piece :: rest)
      else (String a piece, rest)
  end.

Definition split_on (sep : ascii) (s : string) : list string :=
  let '(piece, rest) := pieces sep s in piece :: rest.

(** [s.split(sep)[0]]: the text before the first separator, or all of [s]. *)
Fixpoint before (sep : ascii) (s : string) : string :=
  match s with
  | EmptyString => EmptyString
  | String a s' => if Ascii.eqb a sep then EmptyString else String a (before sep s')
  end.

(** [s.split(sep, 1)[1]]: the text after the first separator; [None] when
    [sep in s] is false. *)
Fixpoint after (sep : ascii) (s : string) : option string :=
  match s with
  | EmptyString => None
  | String a s' => if Ascii.eqb a sep then Some s' else after sep s'
  end.

(** [s.isdigit()]: not empty, and every character a digit.  Below 256 the
    digits are 0 to 9 and the superscripts U+00B2, U+00B3 and U+00B9. *)
Definition digit_char (a : ascii) : bool :=
  let n := N_of_ascii a in
  (N.leb 48 n && N.leb n 57) || N.eqb n 178 || N.eqb n 179 || N.eqb n 185.

Fixpoint all_digits (s : string) : bool :=
  match s with
  | EmptyString => true
  | String a s' => digit_char a && all_digits s'
  end.

Definition isdigit (s : string) : bool :=
  match s with
  | EmptyString => false
  | _ => all_digits s
  end.

(** [s.endswith(p)]. *)
Definition endswith (p s : string) : bool :=
  Py.startswith (string_of_list_ascii (rev (list_ascii_of_string p)))
    (string_of_list_ascii (rev (list_ascii_of_string s))).

(** [s[3:-3]]. *)
Definition slice_3_m3 (s : string) : string :=
  let l := list_ascii_of_string s in
  string_of_list_ascii (take (length l - 6) (drop 3 l)).

(** [s.replace(pat, '')] for a non-empty [pat]: occurrences are removed
    from left to right without overlap; [skip] counts the characters of a
    matched occurrence still to be dropped. *)
Fixpoint remove_from (pat : string) (skip : nat) (s : string) : string :=
  match s with
  | EmptyString => EmptyString
  | String a s' =>
      match skip with
      | S k => remove_from pat k s'
      | O =>
          if Py.startswith pat s then remove_from pat (String.length pat - 1) s'
          else String a (remove_from pat 0 s')
      end
  end.

Definition remove (pat s : string) : string := remove_from pat 0 s.

Definition fence : string := "```".

(** The code-fence removal. *)
Definition unfence (program_text : string) : string :=
  if Py.startswith fence program_text && endswith fence program_text
  then remove "assembly" (slice_3_m3 program_text)
  else program_text.

(** One turn of the loop: the instruction appended for [line], if any. *)
Definition clean_line (line : string) : option string :=
  let line := strip line in
  let line :=
    match after ":" line with
    | Some rest => if isdigit (strip (before ":" line)) then strip rest else line
    | None => line
    end in
  match line with
  | EmptyString => None
  | _ => if Py.startswith "#" line then None else Some (strip (before "#" line))
  end.

Definition newline : ascii := ascii_of_nat 10.

(** The list [instructions] when the loop ends. *)
Definition clean_instructions (program_text : string) : list string :=
  omap clean_line (split_on newline (unfence program_text)).

(** The instructions, or [None] for the [ValueError] raised on an empty
    list. *)
Definition generated_instructions (program_text : string) : option (list string) :=
  match clean_instructions program_text with
  | [] => None
  | instructions => Some instructions
  end.

End Cleanup.



(** * Properties *)

(** ** The built-ins and the sample program, evaluated *)

Example split_example :
  Py.split "  ADD  R3 R1	R2 " = ["ADD"; "R3"; "R1"; "R2"].
Proof. reflexivity. Qed.

Example split_blank : Py.split "   " = [] /\ Py.split "" = [].
Proof. split; reflexivity. Qed.

Example int_examples :
  Py.int Py.Hex "0x100" = Some 256 /\ Py.int Py.Dec "256" = Some 256 /\
  Py.int Py.Dec "-5" = Some (-5) /\ Py.int Py.Dec "1_0" = Some 10 /\
  Py.int Py.Hex "0x_10" = Some 16 /\ Py.int Py.Hex "0x__1" = None /\
  Py.int Py.Dec "0x10" = None /\ Py.int Py.Dec "_1" = None /\
  Py.int Py.Dec "1_" = None /\ Py.int Py.Dec " 5 " = Some 5 /\
  Py.int Py.Hex "0x" = None /\ Py.int Py.Hex "0xfF" = Some 255 /\
  Py.int Py.Hex "0x+5" = None /\ Py.int Py.Dec "00" = Some 0 /\
  Py.int Py.Dec "" = None /\ Py.int Py.Dec "R1" = None.
Proof. repeat split; reflexivity. Qed.

Example sample_run :
  registers after_sample !! "R1" = Some 10 /\
  registers after_sample !! "R2" = Some 20 /\
  registers after_sample !! "R3" = Some 30 /\
  memory after_sample !! 256 = Some 30 /\
  registers after_sample !! "R4" = Some 30 /\
  registers after_sample !! "R5" = Some 20 /\
  registers after_sample !! "R6" = Some 0 /\
  pc after_sample = 8 /\ halted after_sample = true.
Proof. vm_compute. repeat split. Qed.

(** Case analysis along the control flow of a method body: unfold the
    monadic operations and split on whatever the next [match] or [if]
    inspects. *)
Ltac unfold_methods :=
  unfold execute, dispatch, alu, exec_LOAD, exec_STORE, exec_MOV, exec_JUMP,
    exec_BEQ, fetch, decode, get_operands, read_register, unpack2, unpack3,
    or_raise, bind, ret, raise, modify, read in *.

Ltac split_flow :=
  repeat first [ progress (simpl in *; subst) |
    match goal with
    | H : Some _ = Some _ |- _ => injection H as H
    | H : (_, _) = (_, _) |- _ => injection H as H
    | H : Ok _ _ = Ok _ _ |- _ => injection H as H
    | H : Raise _ _ = Raise _ _ |- _ => injection H as H
    | H : Some _ = None |- _ => discriminate H
    | H : None = Some _ |- _ => discriminate H
    | H : Ok _ _ = Raise _ _ |- _ => discriminate H
    | H : Raise _ _ = Ok _ _ |- _ => discriminate H
    | H : true = false |- _ => discriminate H
    | H : false = true |- _ => discriminate H
    | H : context [match ?x with _ => _ end] |- _ => destruct x eqn:?
    | |- context [match ?x with _ => _ end] => destruct x eqn:?
    end ].

Section Stages.

Variable c : CPU.

(** Frame of [fetch]: the maps, the change sets and [pc] are untouched,
    whether it returns or raises. *)
Lemma fetch_frame :
  registers (state_of (fetch c)) = registers c /\
  memory (state_of (fetch c)) = memory c /\
  changed_registers (state_of (fetch c)) = changed_registers c /\
  changed_memory (state_of (fetch c)) = changed_memory c /\
  pc (state_of (fetch c)) = pc c.
Proof. unfold_methods. split_flow; repeat split; reflexivity. Qed.

(** Frame of [decode]. *)
Lemma decode_frame :
  registers (state_of (decode c)) = registers c /\
  memory (state_of (decode c)) = memory c /\
  changed_registers (state_of (decode c)) = changed_registers c /\
  changed_memory (state_of (decode c)) = changed_memory c /\
  pc (state_of (decode c)) = pc c /\
  ir (state_of (decode c)) = ir c /\
  halted (state_of (decode c)) = halted c.
Proof. unfold_methods. split_flow; repeat split; reflexivity. Qed.

End Stages.

(** C9. A call to [fetch] or to [decode] leaves the register map, the
    memory map and both change sets as they were; [decode] also leaves the
    program counter, the instruction register and the halted flag unchanged,
    and [fetch] never changes the program counter.  This covers the calls
    that raise as well as those that return. *)
Theorem fetch_decode_frame (c : CPU) :
  (registers (state_of (fetch c)) = registers c /\
   memory (state_of (fetch c)) = memory c /\
   changed_registers (state_of (fetch c)) = changed_registers c /\
   changed_memory (state_of (fetch c)) = changed_memory c /\
   pc (state_of (fetch c)) = pc c) /\
  (registers (state_of (decode c)) = registers c /\
   memory (state_of (decode c)) = memory c /\
   changed_registers (state_of (decode c)) = changed_registers c /\
   changed_memory (state_of (decode c)) = changed_memory c /\
   pc (state_of (decode c)) = pc c /\
   ir (state_of (decode c)) = ir c /\
   halted (state_of (decode c)) = halted c).
Proof. split; [apply fetch_frame | apply decode_frame]. Qed.

(** C1. How [execute] moves the program counter.  With a decoded opcode:
    JUMP whose first operand parses to [A] leaves [pc = A] whatever [pc] was
    before (it stores [A - 1] and the common increment lands on [A]); BEQ
    [rs1 rs2 A] leaves [pc = A] when the two registers hold equal values and
    [pc + 1] otherwise; every other opcode that completes successfully
    (HALT never does) leaves [pc + 1]. *)
Theorem execute_pc_advance (c : CPU) (op : string) :
  opcode c = Some op →
  (op = "JUMP" → ∀ a rest A,
     operands c = Some (a :: rest) → parse_addr a = Some A →
     snd (execute c) = true /\ pc (fst (execute c)) = A) /\
  (op = "BEQ" → ∀ rs1 rs2 a v1 v2 A,
     operands c = Some [rs1; rs2; a] →
     registers c !! rs1 = Some v1 → registers c !! rs2 = Some v2 →
     parse_addr a = Some A →
     snd (execute c) = true /\
     pc (fst (execute c)) = if decide (v1 = v2) then A else pc c + 1) /\
  (op ≠ "JUMP" → op ≠ "BEQ" → op ≠ "HALT" →
     snd (execute c) = true → pc (fst (execute c)) = pc c + 1).
Proof.
  intros Hop. split; [|split].
  - intros -> a rest A Hargs Ha. unfold_methods. simpl.
    rewrite Hop. simpl. rewrite Hargs. simpl. rewrite Ha. simpl.
    split; [reflexivity | lia].
  - intros -> rs1 rs2 a v1 v2 A Hargs H1 H2 Ha. unfold_methods. simpl.
    rewrite Hop. simpl. rewrite Hargs. simpl. rewrite Ha. simpl.
    rewrite H1. simpl. rewrite H2. simpl.
    destruct (Z.eqb_spec v1 v2); case_decide; try contradiction; simpl;
      (split; [reflexivity | lia]).
  - intros HJ HB _ Hret.
    apply String.eqb_neq in HJ, HB.
    unfold_methods. simpl in *. rewrite Hop in *. simpl in *.
    rewrite HJ, HB in *.
    split_flow; reflexivity.
Qed.

Lemma execute_pc_advance_witness :
  pc (fst (execute (at_pc40 "JUMP" ["0x10"]))) = 16 /\
  pc (fst (execute (at_pc40 "BEQ" ["R0"; "R1"; "3"]))) = 3 /\
  pc (fst (execute (at_pc40 "BEQ" ["R0"; "R2"; "3"]))) = 41 /\
  pc (fst (execute (at_pc40 "MOV" ["R3"; "5"]))) = 41.
Proof.
  split; [|split; [|split]].
  - apply (proj1 (execute_pc_advance (at_pc40 "JUMP" ["0x10"]) "JUMP" eq_refl)
             eq_refl "0x10" [] 16); reflexivity.
  - apply (proj1 (proj2 (execute_pc_advance (at_pc40 "BEQ" ["R0"; "R1"; "3"])
                           "BEQ" eq_refl))
             eq_refl "R0" "R1" "3" 0 0 3); reflexivity.
  - apply (proj1 (proj2 (execute_pc_advance (at_pc40 "BEQ" ["R0"; "R2"; "3"])
                           "BEQ" eq_refl))
             eq_refl "R0" "R2" "3" 0 7 3); reflexivity.
  - apply (proj2 (proj2 (execute_pc_advance (at_pc40 "MOV" ["R3"; "5"])
                           "MOV" eq_refl))); [discriminate .. | reflexivity].
Defined.

(** C10. ADD and SUB are exact on unbounded integers: with both source
    registers present, the destination register and the ALU output hold the
    mathematical sum (difference) of the two source values, whatever their
    size, and the instruction completes. *)
Theorem alu_exact (c : CPU) (rd rs1 rs2 : string) (v1 v2 : Z) :
  operands c = Some [rd; rs1; rs2] →
  registers c !! rs1 = Some v1 →
  registers c !! rs2 = Some v2 →
  (opcode c = Some "ADD" →
     registers (fst (execute c)) !! rd = Some (v1 + v2) /\
     alu_output (fst (execute c)) = v1 + v2 /\
     snd (execute c) = true) /\
  (opcode c = Some "SUB" →
     registers (fst (execute c)) !! rd = Some (v1 - v2) /\
     alu_output (fst (execute c)) = v1 - v2 /\
     snd (execute c) = true).
Proof.
  intros Hargs H1 H2.
  split; intros Hop; unfold_methods; simpl; rewrite Hop; simpl;
    rewrite Hargs; simpl; rewrite H1; simpl; rewrite H2; simpl;
    rewrite lookup_insert_eq; repeat split; reflexivity.
Qed.

Lemma alu_exact_witness :
  registers (fst (execute (at_int_max "ADD"))) !! "R3" = Some (-1) /\
  registers (fst (execute (at_int_max "SUB"))) !! "R3" = Some 4294967295.
Proof.
  split.
  - apply (proj1 (alu_exact (at_int_max "ADD") "R3" "R1" "R2"
                    2147483647 (-2147483648) eq_refl eq_refl eq_refl) eq_refl).
  - apply (proj2 (alu_exact (at_int_max "SUB") "R3" "R1" "R2"
                    2147483647 (-2147483648) eq_refl eq_refl eq_refl) eq_refl).
Defined.

(** C8. An address token that starts with [0x] is read in base 16 and any
    other token in base 10, so [0x100] and [256] are the same address: from
    any state and for any register operand, LOAD with either token reads
    cell 256 and STORE with either token writes cell 256, and the two runs
    agree on the whole resulting state (the stored operand tokens apart) and
    on the returned value. *)
Theorem hex_decimal_same_cell (c : CPU) (r : string) :
  let load a := execute (decoded "LOAD" [r; a] c) in
  let store a := execute (decoded "STORE" [r; a] c) in
  let stored_cell :=
    match registers c !! r with
    | Some v => <[256 := v]> (memory c)
    | None => memory c
    end in
  (∀ a, parse_addr a =
        if Py.startswith "0x" a then Py.int Py.Hex a else Py.int Py.Dec a) /\
  parse_addr "0x100" = Some 256 /\ parse_addr "256" = Some 256 /\
  registers (fst (load "0x100"))
    = <[r := default 0 (memory c !! 256)]> (registers c) /\
  registers (fst (load "256"))
    = <[r := default 0 (memory c !! 256)]> (registers c) /\
  memory (fst (store "0x100")) = stored_cell /\
  memory (fst (store "256")) = stored_cell /\
  set_operands None (fst (load "0x100")) = set_operands None (fst (load "256")) /\
  snd (load "0x100") = snd (load "256") /\
  set_operands None (fst (store "0x100")) = set_operands None (fst (store "256")) /\
  snd (store "0x100") = snd (store "256").
Proof.
  intros load store stored_cell. subst load store stored_cell.
  split; [reflexivity|]. split; [reflexivity|]. split; [reflexivity|].
  repeat split; unfold_methods; simpl;
    destruct (registers c !! r); reflexivity.
Qed.

Example load_hex_decimal :
  let c := set_memory <[256 := 30]> new_CPU in
  registers (fst (execute (decoded "LOAD" ["R4"; "0x100"] c))) !! "R4" = Some 30 /\
  registers (fst (execute (decoded "LOAD" ["R4"; "256"] c))) !! "R4" = Some 30.
Proof. vm_compute. split; reflexivity. Qed.

(** C4. With a decoded opcode, [execute] empties both change sets before it
    dispatches, so what they hold afterwards does not depend on what they
    held before (no accumulation).  ADD and SUB with both source registers
    present, MOV with a well-formed immediate and LOAD with a well-formed
    address complete successfully and leave exactly the destination (the
    first operand) in the changed registers and no address in the changed
    memory; STORE with a present source register and a well-formed address
    completes successfully and leaves exactly the parsed target address in
    the changed memory and no register in the changed registers.  Whenever
    one of these five instructions returns success, its operands have that
    shape and the sets are those. *)
Theorem change_sets_exact (c : CPU) (op : string) :
  opcode c = Some op →
  (∀ s1 s2,
     execute (set_changed_memory (fun _ => s2)
                (set_changed_registers (fun _ => s1) c))
     = execute (set_changed_memory (fun _ => ∅)
                  (set_changed_registers (fun _ => ∅) c))) /\
  (writes_register op → snd (execute c) = true →
     ∃ rd rest, operands c = Some (rd :: rest) /\
       changed_registers (fst (execute c)) = {[rd]} /\
       changed_memory (fst (execute c)) = ∅) /\
  (op = "STORE" → snd (execute c) = true →
     ∃ rs a addr, operands c = Some [rs; a] /\ parse_addr a = Some addr /\
       changed_memory (fst (execute c)) = {[addr]} /\
       changed_registers (fst (execute c)) = ∅) /\
  (∀ rd rs1 rs2 v1 v2, op = "ADD" \/ op = "SUB" →
     operands c = Some [rd; rs1; rs2] →
     registers c !! rs1 = Some v1 → registers c !! rs2 = Some v2 →
     snd (execute c) = true /\
     changed_registers (fst (execute c)) = {[rd]} /\
     changed_memory (fst (execute c)) = ∅) /\
  (∀ rd imm v, op = "MOV" →
     operands c = Some [rd; imm] → Py.int Py.Dec imm = Some v →
     snd (execute c) = true /\
     changed_registers (fst (execute c)) = {[rd]} /\
     changed_memory (fst (execute c)) = ∅) /\
  (∀ rd a addr, op = "LOAD" →
     operands c = Some [rd; a] → parse_addr a = Some addr →
     snd (execute c) = true /\
     changed_registers (fst (execute c)) = {[rd]} /\
     changed_memory (fst (execute c)) = ∅) /\
  (∀ rs a addr v, op = "STORE" →
     operands c = Some [rs; a] → parse_addr a = Some addr →
     registers c !! rs = Some v →
     snd (execute c) = true /\
     changed_memory (fst (execute c)) = {[addr]} /\
     changed_registers (fst (execute c)) = ∅).
Proof.
  intros Hop. split; [|split; [|split; [|split; [|split; [|split]]]]].
  - intros s1 s2. unfold execute. simpl. rewrite Hop. reflexivity.
  - intros Hw Hret.
    destruct Hw as [-> | [-> | [-> | ->]]];
      unfold_methods; simpl in *; rewrite Hop in *; simpl in *;
      split_flow; eexists _, _; (split; [reflexivity|]);
      split; try reflexivity; apply union_empty_r_L.
  - intros -> Hret.
    unfold_methods; simpl in *; rewrite Hop in *; simpl in *.
    split_flow. eexists _, _, _. split; [reflexivity|].
    split; [eassumption|]. split; [apply union_empty_r_L | reflexivity].
  - intros rd rs1 rs2 v1 v2 [-> | ->] Hargs H1 H2;
      unfold_methods; simpl; rewrite Hop; simpl; rewrite Hargs; simpl;
      rewrite H1; simpl; rewrite H2; simpl;
      (split; [reflexivity|]); (split; [apply union_empty_r_L | reflexivity]).
  - intros rd imm v -> Hargs Himm.
    unfold_methods; simpl; rewrite Hop; simpl; rewrite Hargs; simpl.
    rewrite Himm. simpl.
    split; [reflexivity|]. split; [apply union_empty_r_L | reflexivity].
  - intros rd a addr -> Hargs Ha.
    unfold_methods; simpl; rewrite Hop; simpl; rewrite Hargs; simpl.
    rewrite Ha. simpl.
    split; [reflexivity|]. split; [apply union_empty_r_L | reflexivity].
  - intros rs a addr v -> Hargs Ha Hrs.
    unfold_methods; simpl; rewrite Hop; simpl; rewrite Hargs; simpl.
    rewrite Ha. simpl. rewrite Hrs. simpl.
    split; [reflexivity|]. split; [apply union_empty_r_L | reflexivity].
Qed.

(** Each of the five instructions, run on a machine whose change sets hold
    leftovers ([R7] and address 8). *)
Lemma change_sets_exact_witness :
  (snd (execute (stale_sets "ADD" ["R3"; "R1"; "R2"])) = true /\
   changed_registers (fst (execute (stale_sets "ADD" ["R3"; "R1"; "R2"]))) = {["R3"]} /\
   changed_memory (fst (execute (stale_sets "ADD" ["R3"; "R1"; "R2"]))) = ∅) /\
  (snd (execute (stale_sets "SUB" ["R5"; "R4"; "R1"])) = true /\
   changed_registers (fst (execute (stale_sets "SUB" ["R5"; "R4"; "R1"]))) = {["R5"]} /\
   changed_memory (fst (execute (stale_sets "SUB" ["R5"; "R4"; "R1"]))) = ∅) /\
  (snd (execute (stale_sets "MOV" ["R1"; "5"])) = true /\
   changed_registers (fst (execute (stale_sets "MOV" ["R1"; "5"]))) = {["R1"]} /\
   changed_memory (fst (execute (stale_sets "MOV" ["R1"; "5"]))) = ∅) /\
  (snd (execute (stale_sets "LOAD" ["R4"; "0x100"])) = true /\
   changed_registers (fst (execute (stale_sets "LOAD" ["R4"; "0x100"]))) = {["R4"]} /\
   changed_memory (fst (execute (stale_sets "LOAD" ["R4"; "0x100"]))) = ∅) /\
  (snd (execute (stale_sets "STORE" ["R1"; "0x10"])) = true /\
   changed_memory (fst (execute (stale_sets "STORE" ["R1"; "0x10"]))) = {[16]} /\
   changed_registers (fst (execute (stale_sets "STORE" ["R1"; "0x10"]))) = ∅) /\
  (∃ rd rest, operands (stale_sets "MOV" ["R1"; "5"]) = Some (rd :: rest) /\
     changed_registers (fst (execute (stale_sets "MOV" ["R1"; "5"]))) = {[rd]} /\
     changed_memory (fst (execute (stale_sets "MOV" ["R1"; "5"]))) = ∅).
Proof.
  split; [|split; [|split; [|split; [|split]]]].
  - pose proof (change_sets_exact (stale_sets "ADD" ["R3"; "R1"; "R2"])
                  "ADD" eq_refl) as (_ & _ & _ & Halu & _).
    apply (Halu "R3" "R1" "R2" 0 0); [left|..]; reflexivity.
  - pose proof (change_sets_exact (stale_sets "SUB" ["R5"; "R4"; "R1"])
                  "SUB" eq_refl) as (_ & _ & _ & Halu & _).
    apply (Halu "R5" "R4" "R1" 0 0); [right|..]; reflexivity.
  - pose proof (change_sets_exact (stale_sets "MOV" ["R1"; "5"])
                  "MOV" eq_refl) as (_ & _ & _ & _ & Hmov & _).
    apply (Hmov "R1" "5" 5); reflexivity.
  - pose proof (change_sets_exact (stale_sets "LOAD" ["R4"; "0x100"])
                  "LOAD" eq_refl) as (_ & _ & _ & _ & _ & Hload & _).
    apply (Hload "R4" "0x100" 256); reflexivity.
  - pose proof (change_sets_exact (stale_sets "STORE" ["R1"; "0x10"])
                  "STORE" eq_refl) as (_ & _ & _ & _ & _ & _ & Hstore).
    apply (Hstore "R1" "0x10" 16 0); reflexivity.
  - apply (proj1 (proj2 (change_sets_exact (stale_sets "MOV" ["R1"; "5"])
                           "MOV" eq_refl))).
    + right; right; left; reflexivity.
    + vm_compute; reflexivity.
Defined.

(** Any other opcode reaches the final [else] and raises. *)
Lemma dispatch_unknown (op : string) :
  op ∉ known_opcodes → dispatch op = raise ValueError.
Proof.
  intros Hop. unfold known_opcodes in Hop.
  rewrite !not_elem_of_cons in Hop.
  destruct Hop as (?&?&?&?&?&?&?&?&?&_).
  unfold dispatch.
  repeat match goal with
         | H : op ≠ ?s |- _ => apply String.eqb_neq in H; rewrite H; clear H
         end.
  reflexivity.
Qed.

Lemma FOO_unknown : "FOO" ∉ known_opcodes.
Proof.
  unfold known_opcodes. intros H.
  repeat (apply elem_of_cons in H as [H | H]; [discriminate H|]).
  apply elem_of_nil in H. exact H.
Qed.

(** No stage ever turns [halted] off. *)
Lemma halted_kept (c : CPU) :
  halted c = true →
  halted (state_of (fetch c)) = true /\
  halted (state_of (decode c)) = true /\
  halted (fst (execute c)) = true.
Proof.
  intros Hh. split; [|split].
  - unfold_methods. split_flow; auto.
  - unfold_methods. split_flow; auto.
  - unfold_methods. split_flow; auto.
Qed.

(** C2, as stated, fails: a direct [execute] call on a halted machine still
    runs the pending instruction.  Here the machine is halted with
    [R1 = 10] and [pc = 2]; [execute] leaves [R1 = 20] and [pc = 3]. *)
Lemma halted_execute_still_mutates :
  reachable ran_off_end /\
  halted ran_off_end = true /\
  registers ran_off_end !! "R1" = Some 10 /\
  pc ran_off_end = 2 /\
  registers (fst (execute ran_off_end)) !! "R1" = Some 20 /\
  pc (fst (execute ran_off_end)) = 3.
Proof.
  split.
  - unfold ran_off_end, cycle.
    apply reach_fetch.
    apply reach_execute, reach_decode, reach_fetch.
    apply reach_execute, reach_decode, reach_fetch.
    apply reach_load, reach_new.
  - vm_compute. repeat split; reflexivity.
Qed.

(** C2, amended.  [halted] becomes true after a [fetch] with [pc] at or past
    the end of the program, after an [execute] of HALT and after an
    [execute] of an unknown opcode.  Once true it stays true across [fetch],
    [decode] and [execute]; only [reset] and [load_program] clear it.
    [fetch] and [decode] never change registers, memory or [pc].  The guard
    against running a halted machine is in the driver: [step] makes no
    stage call when [halted] is set and leaves the machine as it is. *)
Theorem halted_monotonic (c : CPU) :
  (pc c >= Z.of_nat (length (instructions c)) →
     halted (state_of (fetch c)) = true /\ value_of (fetch c) = Some false) /\
  (opcode c = Some "HALT" →
     halted (fst (execute c)) = true /\ snd (execute c) = false) /\
  (∀ op, opcode c = Some op → op ∉ known_opcodes →
     halted (fst (execute c)) = true /\ snd (execute c) = false) /\
  (halted c = true →
     halted (state_of (fetch c)) = true /\
     halted (state_of (decode c)) = true /\
     halted (fst (execute c)) = true /\
     CPUSimulatorGUI.step c = c) /\
  (registers (state_of (fetch c)) = registers c /\
   memory (state_of (fetch c)) = memory c /\
   pc (state_of (fetch c)) = pc c) /\
  (registers (state_of (decode c)) = registers c /\
   memory (state_of (decode c)) = memory c /\
   pc (state_of (decode c)) = pc c) /\
  halted (reset c) = false /\
  (∀ program, halted (load_program program c) = false).
Proof.
  split; [|split; [|split; [|split; [|split; [|split; [|split]]]]]].
  - intros Hpc. unfold_methods. simpl.
    destruct (Z.geb_spec (pc c) (Z.of_nat (length (instructions c))));
      [split; reflexivity | lia].
  - intros Hop. unfold_methods. simpl. rewrite Hop. simpl.
    split; reflexivity.
  - intros op Hop Hunknown. unfold execute. simpl. rewrite Hop.
    rewrite (dispatch_unknown op Hunknown). simpl. split; reflexivity.
  - intros Hh. destruct (halted_kept c Hh) as (Hf & Hd & He).
    repeat split; try assumption.
    unfold CPUSimulatorGUI.step. rewrite Hh. reflexivity.
  - destruct (fetch_frame c) as (?&?&?&?&?). auto.
  - destruct (decode_frame c) as (?&?&?&?&?&?&?). auto.
  - reflexivity.
  - reflexivity.
Qed.

Lemma halted_monotonic_witness :
  halted (fst (execute ran_off_end)) = true /\
  CPUSimulatorGUI.step ran_off_end = ran_off_end /\
  halted (fst (execute (decoded "FOO" ["R1"; "R2"] new_CPU))) = true /\
  halted (state_of (fetch new_CPU)) = true.
Proof.
  pose proof (halted_monotonic ran_off_end) as (_ & _ & _ & Hkeep & _).
  assert (halted ran_off_end = true) as Hh by (vm_compute; reflexivity).
  destruct (Hkeep Hh) as (_ & _ & He & Hs).
  pose proof (halted_monotonic (decoded "FOO" ["R1"; "R2"] new_CPU))
    as (_ & _ & Hfoo & _).
  pose proof (halted_monotonic new_CPU) as (Hend & _).
  split; [exact He|]. split; [exact Hs|]. split.
  - refine (proj1 (Hfoo "FOO" eq_refl _)). apply FOO_unknown.
  - apply Hend. vm_compute. discriminate.
Defined.

Lemma initial_registers (r : string) :
  r ∈ register_names → zeroed register_names !! r = Some 0.
Proof.
  unfold register_names. intros H.
  repeat (apply elem_of_cons in H as [-> | H]; [vm_compute; reflexivity|]).
  apply elem_of_nil in H. contradiction.
Qed.

(** [execute] never removes a key of the register map. *)
Lemma execute_keeps_keys (c : CPU) (r : string) :
  is_Some (registers c !! r) → is_Some (registers (fst (execute c)) !! r).
Proof.
  intros Hr. unfold_methods.
  split_flow; try assumption;
    match goal with
    | |- is_Some (<[?k := _]> _ !! r) =>
        rewrite lookup_insert_is_Some;
        destruct (decide (k = r)); [left | right]; auto
    end.
Qed.

Lemma reachable_has_registers (c : CPU) :
  reachable c → ∀ r, r ∈ register_names → is_Some (registers c !! r).
Proof.
  induction 1 as [|c _ _|c p _ IH|c _ IH|c _ IH|c _ IH]; intros r Hr.
  - simpl. rewrite (initial_registers r Hr). eauto.
  - simpl. rewrite (initial_registers r Hr). eauto.
  - simpl. auto.
  - destruct (fetch_frame c) as (-> & _). auto.
  - destruct (decode_frame c) as (-> & _). auto.
  - apply execute_keeps_keys. auto.
Qed.

(** The outcome of a register-writing instruction does not depend on the
    name of its destination. *)
Lemma destination_not_checked (c : CPU) (op rd rd' : string) (rest : list string) :
  writes_register op →
  snd (execute (decoded op (rd :: rest) c))
    = snd (execute (decoded op (rd' :: rest) c)) /\
  halted (fst (execute (decoded op (rd :: rest) c)))
    = halted (fst (execute (decoded op (rd' :: rest) c))).
Proof.
  intros [-> | [-> | [-> | ->]]]; unfold_methods; simpl;
    split_flow; try congruence; split; reflexivity.
Qed.

(** C3.  The register set is not kept fixed: [execute] writes its
    destination without looking it up.  After one cycle of the program
    [MOV R9 5] the register map has the ninth key [R9], the call returned
    success and the machine is not halted.  The same name as a source
    operand is refused: [ADD R1 R9 R0] on a fresh machine halts and leaves
    the eight registers as they are. *)
Theorem destination_creates_register :
  reachable after_mov_r9 /\
  ("R9" ∉ register_names) /\
  registers new_CPU !! "R9" = None /\
  registers after_mov_r9 !! "R9" = Some 5 /\
  halted after_mov_r9 = false /\
  snd (execute (state_of (decode (state_of (fetch
         (load_program ["MOV R9 5"] new_CPU)))))) = true /\
  halted (fst (execute (decoded "ADD" ["R1"; "R9"; "R0"] new_CPU))) = true /\
  registers (fst (execute (decoded "ADD" ["R1"; "R9"; "R0"] new_CPU))) !! "R9"
    = None.
Proof.
  split.
  - unfold after_mov_r9, cycle.
    apply reach_execute, reach_decode, reach_fetch, reach_load, reach_new.
  - split.
    + unfold register_names. intros H.
      repeat (apply elem_of_cons in H as [H | H]; [discriminate H|]).
      apply elem_of_nil in H. exact H.
    + vm_compute. repeat split; reflexivity.
Qed.

(** X23.  Registers are never lost.  In every state reachable through
    [reset], [load_program], [fetch], [decode] and [execute] the register
    map has the eight keys R0..R7, and no operation removes a key: [reset]
    yields exactly those eight, [load_program], [fetch] and [decode] leave
    the map as it is, and [execute] keeps every key it finds.  As the code
    stands, the destination operand is not looked up: whether a
    register-writing instruction succeeds or halts does not depend on the
    destination name, and when it succeeds the destination is a key of the
    map afterwards. *)
Theorem register_keys_only_grow (c : CPU) :
  reachable c →
  (∀ r, r ∈ register_names → is_Some (registers c !! r)) /\
  dom (registers (reset c)) = list_to_set register_names /\
  (∀ program, registers (load_program program c) = registers c) /\
  registers (state_of (fetch c)) = registers c /\
  registers (state_of (decode c)) = registers c /\
  dom (registers c) ⊆ dom (registers (fst (execute c))) /\
  (∀ op rd rd' rest, writes_register op →
     snd (execute (decoded op (rd :: rest) c))
       = snd (execute (decoded op (rd' :: rest) c)) /\
     halted (fst (execute (decoded op (rd :: rest) c)))
       = halted (fst (execute (decoded op (rd' :: rest) c)))) /\
  (∀ op rd rest, writes_register op →
     opcode c = Some op → operands c = Some (rd :: rest) →
     snd (execute c) = true →
     is_Some (registers (fst (execute c)) !! rd) /\
     halted (fst (execute c)) = halted c).
Proof.
  intros Hreach.
  split; [exact (reachable_has_registers c Hreach)|].
  split; [simpl; unfold zeroed; rewrite dom_list_to_map_L; reflexivity|].
  split; [reflexivity|].
  split; [apply fetch_frame|].
  split; [apply decode_frame|].
  split.
  { intros r. rewrite !elem_of_dom. apply execute_keeps_keys. }
  split.
  { intros op rd rd' rest Hw. apply destination_not_checked, Hw. }
  intros op rd rest Hw Hop Hargs Hret.
  destruct Hw as [-> | [-> | [-> | ->]]];
    unfold_methods; simpl in *; rewrite Hop in *; simpl in *;
    rewrite Hargs in *; split_flow;
    (split; [rewrite lookup_insert_eq; eauto | reflexivity]).
Qed.

Lemma register_keys_only_grow_witness :
  is_Some (registers after_mov_r9 !! "R3") /\
  dom (registers (reset after_mov_r9)) = list_to_set register_names.
Proof.
  assert (reachable after_mov_r9) as Hreach.
  { unfold after_mov_r9, cycle.
    apply reach_execute, reach_decode, reach_fetch, reach_load, reach_new. }
  pose proof (register_keys_only_grow after_mov_r9 Hreach) as (Hkeys & Hreset & _).
  split; [|exact Hreset].
  apply Hkeys. unfold register_names.
  do 3 apply list_elem_of_further. apply list_elem_of_here.
Defined.

(** ** [reset] and [load_program] *)

Lemma zeroed_lookup {K} `{Countable K} (keys : list K) (k : K) :
  zeroed keys !! k = if decide (k ∈ keys) then Some 0 else None.
Proof.
  unfold zeroed. induction keys as [|k' keys IH].
  - change (list_to_map (map (fun k0 : K => (k0, 0)) [])) with (∅ : gmap K Z).
    rewrite lookup_empty. destruct (decide (k ∈ [])) as [Hin | _]; [|reflexivity].
    apply elem_of_nil in Hin. contradiction.
  - change (list_to_map (map (fun k0 : K => (k0, 0)) (k' :: keys)))
      with (<[k' := 0]> (list_to_map (map (fun k0 : K => (k0, 0)) keys) : gmap K Z)).
    destruct (decide (k' = k)) as [-> | Hne].
    + rewrite lookup_insert_eq. rewrite decide_True; [reflexivity|].
      apply list_elem_of_here.
    + rewrite lookup_insert_ne by exact Hne. rewrite IH.
      destruct (decide (k ∈ keys)) as [Hin | Hnin];
        destruct (decide (k ∈ k' :: keys)) as [Hin' | Hnin']; try reflexivity.
      * exfalso. apply Hnin'. apply list_elem_of_further. exact Hin.
      * exfalso. apply elem_of_cons in Hin' as [-> | Hin']; contradiction.
Qed.

Lemma memory_addresses_spec (a : Z) :
  a ∈ memory_addresses ↔ 0 <= a < 256 /\ a mod 4 = 0.
Proof.
  unfold memory_addresses. rewrite list_elem_of_fmap. split.
  - intros (i & -> & Hi). apply elem_of_seq in Hi.
    split; [lia|]. rewrite Z.mul_comm. apply Z_mod_mult.
  - intros (Hrange & Hmod). exists (Z.to_nat (a / 4)). split.
    + rewrite Z2Nat.id by (apply Z.div_pos; lia).
      pose proof (Z_div_mod_eq_full a 4). lia.
    + apply elem_of_seq. split; [lia|].
      assert (a / 4 < 64) by (apply Z.div_lt_upper_bound; lia). lia.
Qed.

(** What [reset] establishes: every attribute it assigns. *)
Lemma reset_clears (c : CPU) :
  (∀ r, registers (reset c) !! r
        = if decide (r ∈ register_names) then Some 0 else None) /\
  (∀ a, memory (reset c) !! a
        = if decide (0 <= a < 256 /\ a mod 4 = 0) then Some 0 else None) /\
  pc (reset c) = 0 /\ ir (reset c) = None /\ instructions (reset c) = [] /\
  halted (reset c) = false /\ control_signals (reset c) = all_off /\
  changed_registers (reset c) = ∅ /\ changed_memory (reset c) = ∅.
Proof.
  split; [intros r; apply zeroed_lookup|].
  split; [|repeat split].
  intros a. simpl. rewrite zeroed_lookup.
  pose proof (memory_addresses_spec a).
  repeat case_decide; tauto.
Qed.

(** What [load_program] establishes, and what it leaves alone. *)
Lemma load_program_clears (program : list string) (c : CPU) :
  instructions (load_program program c) = program /\
  pc (load_program program c) = 0 /\ ir (load_program program c) = None /\
  opcode (load_program program c) = None /\
  operands (load_program program c) = None /\
  halted (load_program program c) = false /\
  changed_registers (load_program program c) = ∅ /\
  changed_memory (load_program program c) = ∅ /\
  registers (load_program program c) = registers c /\
  memory (load_program program c) = memory c.
Proof. repeat split. Qed.

(** C5.  [reset] does not clear the decoded instruction: it assigns neither
    [opcode] nor [operands], so a machine reset after a [decode] still
    carries the decoded MOV, and an [execute] right after the reset runs it
    on the wiped machine ([R1] becomes 5, [pc] becomes 1).
    [load_program], by contrast, deletes both attributes. *)
Theorem reset_keeps_decoded_instruction :
  reachable decoded_mov /\
  opcode (reset decoded_mov) = Some "MOV" /\
  operands (reset decoded_mov) = Some ["R1"; "5"] /\
  registers (fst (execute (reset decoded_mov))) !! "R1" = Some 5 /\
  pc (fst (execute (reset decoded_mov))) = 1 /\
  opcode (load_program [] decoded_mov) = None /\
  operands (load_program [] decoded_mov) = None.
Proof.
  split.
  - unfold decoded_mov.
    apply reach_decode, reach_fetch, reach_load, reach_new.
  - vm_compute. repeat split; reflexivity.
Qed.

(** ** [decode] *)

(** What [decode] does on each kind of instruction register. *)
Lemma decode_cases (c : CPU) :
  (Py.truthy (ir c) = false →
     decode c = Ok false (set_control_signals (fun _ => decode_on) c)) /\
  (∀ s first rest, ir c = Some s → s ≠ "" → Py.split s = first :: rest →
     decode c = Ok true
       (set_operands (Some rest) (set_opcode (Some (Py.upper first))
          (set_control_signals (fun _ => decode_on) c)))) /\
  (∀ s, ir c = Some s → s ≠ "" → Py.split s = [] →
     decode c = Raise IndexError (set_control_signals (fun _ => decode_on) c)).
Proof.
  split; [|split].
  - intros Hir. unfold_methods. simpl. rewrite Hir. reflexivity.
  - intros s first rest Hir Hs Hsplit. unfold_methods. simpl.
    rewrite Hir. simpl. destruct s as [|a s]; [contradiction|]. simpl.
    rewrite Hsplit. simpl. destruct rest; reflexivity.
  - intros s Hir Hs Hsplit. unfold_methods. simpl.
    rewrite Hir. simpl. destruct s as [|a s]; [contradiction|]. simpl.
    rewrite Hsplit. reflexivity.
Qed.

(** C7.  [decode] is not total: on an instruction register that holds only
    blanks the emptiness test passes, [split()] yields no token and
    [parts[0]] raises [IndexError].  This holds from any state, and the
    one-line program made of three spaces reaches it through [fetch]. *)
Theorem decode_blank_raises (c : CPU) :
  decode (set_ir (Some "   ") c)
    = Raise IndexError
        (set_control_signals (fun _ => decode_on) (set_ir (Some "   ") c)) /\
  value_of (decode (state_of (fetch (load_program ["   "] new_CPU)))) = None.
Proof. split; reflexivity. Qed.

(** ** Failing instructions *)

Lemma unknown_opcode_fails (c : CPU) (op : string) :
  opcode c = Some op → op ∉ known_opcodes → failed_cleanly c.
Proof.
  intros Hop Hunknown. unfold failed_cleanly, execute. simpl. rewrite Hop.
  rewrite (dispatch_unknown op Hunknown). simpl. repeat split.
Qed.

Ltac length_clash :=
  match goal with
  | H : length _ ≠ _ |- _ => simpl in H; contradiction
  end.

Lemma operand_failure_fails (c : CPU) (op : string) (args : list string) :
  opcode c = Some op → operands c = Some args →
  operand_failure c op args → failed_cleanly c.
Proof.
  intros Hop Hargs Hfail. unfold failed_cleanly.
  destruct Hfail;
    repeat match goal with
           | H : _ \/ _ |- _ => destruct H
           end; subst;
    unfold_methods; simpl in *; rewrite Hop; simpl; rewrite Hargs; simpl;
    split_flow; try length_clash; try congruence; repeat split; reflexivity.
Qed.

(** C6.  A missing register name in the destination position is not
    handled as an error.  [R9] is not a key of the register map, yet the
    decoded instruction [MOV R9 5] returns success, advances [pc], leaves
    the machine running and writes the register map.  The sibling path
    does fail: with the missing name as the source of a STORE, [execute]
    halts, returns failure and leaves [pc] where it was. *)
Theorem missing_destination_succeeds :
  registers (decoded "MOV" ["R9"; "5"] new_CPU) !! "R9" = None /\
  snd (execute (decoded "MOV" ["R9"; "5"] new_CPU)) = true /\
  halted (fst (execute (decoded "MOV" ["R9"; "5"] new_CPU))) = false /\
  pc (fst (execute (decoded "MOV" ["R9"; "5"] new_CPU))) = 1 /\
  registers (fst (execute (decoded "MOV" ["R9"; "5"] new_CPU))) !! "R9" = Some 5 /\
  snd (execute (decoded "STORE" ["R9"; "0"] new_CPU)) = false /\
  halted (fst (execute (decoded "STORE" ["R9"; "0"] new_CPU))) = true /\
  pc (fst (execute (decoded "STORE" ["R9"; "0"] new_CPU))) = 0.
Proof. vm_compute. repeat split; reflexivity. Qed.

(** X24.  The failures [execute] does detect are clean.  With a decoded
    instruction, [execute] sets [halted], returns failure, does not move
    [pc] and leaves registers and memory as they were whenever the opcode
    is none of the nine known ones, or the operands fail in one of these
    ways: the wrong number of operands for ADD, SUB, MOV, LOAD, STORE or
    BEQ, no operand for JUMP, a malformed numeric or address literal, or a
    missing source register.  For the program [FOO R1 R2], after fetch,
    decode and execute the machine is halted, the call returned failure and
    no register has changed. *)
Theorem execute_failure (c : CPU) (op : string) (args : list string) :
  (opcode c = Some op → operands c = Some args →
   op ∉ known_opcodes \/ operand_failure c op args →
   halted (fst (execute c)) = true /\
   snd (execute c) = false /\
   pc (fst (execute c)) = pc c /\
   registers (fst (execute c)) = registers c /\
   memory (fst (execute c)) = memory c) /\
  (halted (fst (execute decoded_foo)) = true /\
   snd (execute decoded_foo) = false /\
   registers (fst (execute decoded_foo)) = registers new_CPU /\
   changed_registers (fst (execute decoded_foo)) = ∅).
Proof.
  split.
  - intros Hop Hargs [Hunknown | Hfail].
    + exact (unknown_opcode_fails c op Hop Hunknown).
    + exact (operand_failure_fails c op args Hop Hargs Hfail).
  - assert (opcode decoded_foo = Some "FOO") as Hop by reflexivity.
    destruct (unknown_opcode_fails decoded_foo "FOO" Hop FOO_unknown)
      as (Hh & Hr & _ & Hregs & _).
    split; [exact Hh|]. split; [exact Hr|]. split.
    + rewrite Hregs. reflexivity.
    + vm_compute. reflexivity.
Qed.

Lemma execute_failure_witness :
  halted (fst (execute (decoded "ADD" ["R1"; "R2"; "R8"] new_CPU))) = true /\
  registers (fst (execute (decoded "STORE" ["R1"; "0xZZ"] new_CPU)))
    = registers (decoded "STORE" ["R1"; "0xZZ"] new_CPU) /\
  pc (fst (execute (decoded "JUMP" [] new_CPU))) = 0.
Proof.
  split; [|split].
  - apply (proj1 (execute_failure (decoded "ADD" ["R1"; "R2"; "R8"] new_CPU)
                    "ADD" ["R1"; "R2"; "R8"]) eq_refl eq_refl).
    right. apply fail_alu_source; [left; reflexivity|].
    right. vm_compute. reflexivity.
  - apply (proj1 (execute_failure (decoded "STORE" ["R1"; "0xZZ"] new_CPU)
                    "STORE" ["R1"; "0xZZ"]) eq_refl eq_refl).
    right. apply fail_store_address. vm_compute. reflexivity.
  - apply (proj1 (execute_failure (decoded "JUMP" [] new_CPU) "JUMP" [])
             eq_refl eq_refl).
    right. apply fail_jump_count.
Defined.

(** ** More on [split], [upper] and [decode] *)

Lemma push_token_nil (tok : string) (rest : list string) :
  Py.push_token tok rest = [] ↔ tok = "" /\ rest = [].
Proof.
  destruct tok; simpl; split.
  - intros ->. split; reflexivity.
  - intros [_ ->]. reflexivity.
  - discriminate.
  - intros [? _]. discriminate.
Qed.

Lemma split_from_nil (s : string) :
  Py.split_from s = ("", []) ↔ only_blanks s = true.
Proof.
  induction s as [|a s IH]; simpl.
  - split; reflexivity.
  - destruct (Py.split_from s) as [tok rest]. destruct (Py.isspace a); simpl.
    + rewrite <- IH. split.
      * intros H. injection H as H. apply push_token_nil in H as [-> ->].
        reflexivity.
      * intros H. injection H as -> ->. reflexivity.
    + split; discriminate.
Qed.

(** [split()] finds no token exactly in a string of blanks. *)
Lemma split_nil (s : string) : Py.split s = [] ↔ only_blanks s = true.
Proof.
  rewrite <- split_from_nil. unfold Py.split.
  destruct (Py.split_from s) as [tok rest]. rewrite push_token_nil. split.
  - intros [-> ->]. reflexivity.
  - intros H. injection H as -> ->. split; reflexivity.
Qed.

Lemma push_token_tokens (tok : string) (rest : list string) :
  no_blank tok = true → Forall is_token rest →
  Forall is_token (Py.push_token tok rest).
Proof.
  intros Htok Hrest. destruct tok; simpl; [exact Hrest|].
  constructor; [|exact Hrest]. split; [discriminate | exact Htok].
Qed.

Lemma split_from_tokens (s : string) :
  no_blank (fst (Py.split_from s)) = true /\
  Forall is_token (snd (Py.split_from s)).
Proof.
  induction s as [|a s [IHtok IHrest]]; simpl.
  - split; [reflexivity | constructor].
  - destruct (Py.split_from s) as [tok rest]. simpl in *.
    destruct (Py.isspace a) eqn:Ha; simpl.
    + split; [reflexivity|]. apply push_token_tokens; assumption.
    + rewrite Ha. simpl. split; assumption.
Qed.

(** Every string [split()] returns is a token. *)
Lemma split_tokens (s : string) : Forall is_token (Py.split s).
Proof.
  unfold Py.split. pose proof (split_from_tokens s) as [Htok Hrest].
  destruct (Py.split_from s) as [tok rest]. simpl in *.
  apply push_token_tokens; assumption.
Qed.

Lemma upper_char_idempotent (a : ascii) :
  Py.upper_char (Py.upper_char a) = Py.upper_char a.
Proof.
  destruct a as [[] [] [] [] [] [] [] []]; vm_compute; reflexivity.
Qed.

Lemma upper_char_sharp (a : ascii) :
  N.eqb (N_of_ascii (Py.upper_char a)) 223 = N.eqb (N_of_ascii a) 223.
Proof.
  destruct a as [[] [] [] [] [] [] [] []]; vm_compute; reflexivity.
Qed.

Lemma upper_idempotent (s : string) : Py.upper (Py.upper s) = Py.upper s.
Proof.
  induction s as [|a s IH]; simpl; [reflexivity|].
  destruct (N.eqb (N_of_ascii a) 223) eqn:Ha.
  - change (Py.upper (String "S" (String "S" (Py.upper s))))
      with (String "S" (String "S" (Py.upper (Py.upper s)))).
    rewrite IH. reflexivity.
  - cbn [Py.upper]. rewrite upper_char_sharp, Ha.
    rewrite upper_char_idempotent, IH. reflexivity.
Qed.

Lemma upper_char_blank (a : ascii) :
  Py.isspace (Py.upper_char a) = Py.isspace a.
Proof.
  destruct a as [[] [] [] [] [] [] [] []]; vm_compute; reflexivity.
Qed.

Lemma upper_no_blank (s : string) :
  no_blank s = true → no_blank (Py.upper s) = true.
Proof.
  induction s as [|a s IH]; simpl; [reflexivity|]. intros Hnb.
  apply andb_true_iff in Hnb as [Ha Hs].
  destruct (N.eqb (N_of_ascii a) 223).
  - change (no_blank (String "S" (String "S" (Py.upper s))))
      with (no_blank (Py.upper s)). auto.
  - cbn [no_blank]. rewrite upper_char_blank, Ha. simpl. auto.
Qed.

Lemma upper_token (s : string) : is_token s → is_token (Py.upper s).
Proof.
  intros [Hne Hnb]. split.
  - destruct s as [|a s]; [contradiction|]. simpl.
    destruct (N.eqb (N_of_ascii a) 223); discriminate.
  - apply upper_no_blank, Hnb.
Qed.

(** The three outcomes of [decode] by the content of [ir]. *)
Lemma decode_by_ir (c : CPU) :
  (value_of (decode c) = Some false ↔ ir c = None \/ ir c = Some "") /\
  (value_of (decode c) = None ↔
     ∃ s, ir c = Some s /\ s ≠ "" /\ only_blanks s = true) /\
  (value_of (decode c) = Some true ↔
     ∃ s, ir c = Some s /\ only_blanks s = false).
Proof.
  destruct (ir c) as [s|] eqn:Hir.
  - destruct s as [|a s].
    + destruct (decode_cases c) as (Hfalse & _).
      rewrite Hfalse by (rewrite Hir; reflexivity). simpl.
      split; [|split]; split; try discriminate; try tauto.
      * intros (s & Hs & Hne & _). injection Hs as <-. contradiction.
      * intros (s & Hs & Hb). injection Hs as <-. discriminate.
    + destruct (Py.split (String a s)) as [|first rest] eqn:Hsplit.
      * destruct (decode_cases c) as (_ & _ & Hraise).
        rewrite (Hraise _ Hir ltac:(discriminate) Hsplit). simpl.
        apply split_nil in Hsplit.
        split; [|split]; split; try discriminate; try tauto.
        -- intros [? | ?]; discriminate.
        -- intros _. exists (String a s). repeat split; [discriminate | exact Hsplit].
        -- intros (s' & Hs & Hb). injection Hs as <-. congruence.
      * destruct (decode_cases c) as (_ & Hok & _).
        rewrite (Hok _ _ _ Hir ltac:(discriminate) Hsplit). simpl.
        assert (only_blanks (String a s) = false) as Hb.
        { destruct (only_blanks (String a s)) eqn:E; [|reflexivity].
          apply split_nil in E. congruence. }
        split; [|split]; split; try discriminate; try tauto.
        -- intros [? | ?]; discriminate.
        -- intros (s' & Hs & _ & Hb'). injection Hs as <-. congruence.
        -- intros _. exists (String a s). split; [reflexivity | exact Hb].
  - destruct (decode_cases c) as (Hfalse & _).
    rewrite Hfalse by (rewrite Hir; reflexivity). simpl.
    split; [|split]; split; try discriminate; try tauto.
    + intros (s & Hs & _). discriminate.
    + intros (s & Hs & _). discriminate.
Qed.

(** A successful [decode] leaves tokens behind. *)
Lemma decode_gives_tokens (c : CPU) :
  value_of (decode c) = Some true →
  ∃ op args,
    opcode (state_of (decode c)) = Some op /\
    operands (state_of (decode c)) = Some args /\
    is_token op /\ Py.upper op = op /\ Forall is_token args.
Proof.
  intros Hok.
  destruct (proj1 (proj2 (proj2 (decode_by_ir c))) Hok) as (s & Hir & Hb).
  assert (s ≠ "") as Hne by (intros ->; discriminate).
  pose proof (split_tokens s) as Htok.
  destruct (Py.split s) as [|first rest] eqn:Hsplit.
  { apply split_nil in Hsplit. congruence. }
  destruct (decode_cases c) as (_ & Hdec & _).
  rewrite (Hdec _ _ _ Hir Hne Hsplit). simpl.
  apply Forall_cons in Htok as [Hfirst Hrest].
  exists (Py.upper first), rest.
  repeat split; try reflexivity; try exact Hrest.
  - apply (upper_token _ Hfirst).
  - apply (upper_token _ Hfirst).
  - apply upper_idempotent.
Qed.

(** Decide the integer comparisons of the goal from the hypotheses. *)
Ltac decide_bounds :=
  repeat (match goal with
          | |- context [?a <=? ?b] => destruct (Z.leb_spec a b); try lia
          | |- context [?a <? ?b] => destruct (Z.ltb_spec a b); try lia
          | |- context [?a >=? ?b] => destruct (Z.geb_spec a b); try lia
          end; simpl).

(** The four outcomes of [fetch] by the position of [pc]. *)
Lemma fetch_by_position (c : CPU) :
  let n := Z.of_nat (length (instructions c)) in
  let fetched line :=
    Ok true (set_ir (Some line) (set_control_signals (fun _ => fetch_on) c)) in
  (n <= pc c → fetch c = Ok false (set_halted true c)) /\
  (0 <= pc c < n →
     ∃ line, instructions c !! Z.to_nat (pc c) = Some line /\
             fetch c = fetched line) /\
  (- n <= pc c < 0 →
     ∃ line, instructions c !! Z.to_nat (n + pc c) = Some line /\
             fetch c = fetched line) /\
  (pc c < - n →
     fetch c = Raise IndexError (set_control_signals (fun _ => fetch_on) c)).
Proof.
  intros n fetched. subst n fetched.
  split; [|split; [|split]].
  - intros Hpc. unfold_methods. simpl. decide_bounds. reflexivity.
  - intros Hpc.
    destruct (lookup_lt_is_Some_2 (instructions c) (Z.to_nat (pc c)))
      as [line Hline]; [lia|].
    exists line. split; [exact Hline|].
    unfold_methods. unfold Py.index. simpl. decide_bounds.
    rewrite Hline. reflexivity.
  - intros Hpc.
    destruct (lookup_lt_is_Some_2 (instructions c)
                (Z.to_nat (Z.of_nat (length (instructions c)) + pc c)))
      as [line Hline]; [lia|].
    exists line. split; [exact Hline|].
    unfold_methods. unfold Py.index. simpl. decide_bounds.
    rewrite Hline. reflexivity.
  - intros Hpc.
    unfold_methods. unfold Py.index. simpl. decide_bounds. reflexivity.
Qed.

(** X1.  The three outcomes of [decode], each with its exact condition on
    the instruction register: it returns [False] exactly when [ir] is [None]
    or the empty string; it raises (at [parts[0]]) exactly when [ir] is a
    non-empty string of blanks; it returns [True] exactly when [ir] holds a
    string with at least one non-blank character. *)
Theorem decode_outcome (c : CPU) :
  (value_of (decode c) = Some false ↔ ir c = None \/ ir c = Some "") /\
  (value_of (decode c) = None ↔
     ∃ s, ir c = Some s /\ s ≠ "" /\ only_blanks s = true) /\
  (value_of (decode c) = Some true ↔
     ∃ s, ir c = Some s /\ only_blanks s = false).
Proof. exact (decode_by_ir c). Qed.

(** X2.  What a successful [decode] leaves in the decoded instruction: the
    opcode is a non-empty token already in upper case ([upper] does not
    change it), and every operand is a non-empty token without blanks. *)
Theorem decode_tokens (c : CPU) :
  value_of (decode c) = Some true →
  ∃ op args,
    opcode (state_of (decode c)) = Some op /\
    operands (state_of (decode c)) = Some args /\
    is_token op /\ Py.upper op = op /\ Forall is_token args.
Proof. exact (decode_gives_tokens c). Qed.

Lemma decode_tokens_witness :
  ∃ op args,
    opcode (state_of (decode (set_ir (Some " add  r1 R2 ") new_CPU))) = Some op /\
    operands (state_of (decode (set_ir (Some " add  r1 R2 ") new_CPU))) = Some args /\
    is_token op /\ Py.upper op = op /\ Forall is_token args.
Proof.
  apply (decode_tokens (set_ir (Some " add  r1 R2 ") new_CPU)).
  vm_compute. reflexivity.
Defined.

(** ** More on [fetch] *)

(** X3.  The four outcomes of [fetch] by the position of [pc]: at or past
    the end it halts and returns [False]; inside the program it loads that
    line; a negative [pc] no smaller than minus the length counts from the
    end of the program (Python's negative index) and loads a line; below
    that, indexing raises [IndexError] after the stage signals were set. *)
Theorem fetch_outcome (c : CPU) :
  let n := Z.of_nat (length (instructions c)) in
  let fetched line :=
    Ok true (set_ir (Some line) (set_control_signals (fun _ => fetch_on) c)) in
  (n <= pc c → fetch c = Ok false (set_halted true c)) /\
  (0 <= pc c < n →
     ∃ line, instructions c !! Z.to_nat (pc c) = Some line /\
             fetch c = fetched line) /\
  (- n <= pc c < 0 →
     ∃ line, instructions c !! Z.to_nat (n + pc c) = Some line /\
             fetch c = fetched line) /\
  (pc c < - n →
     fetch c = Raise IndexError (set_control_signals (fun _ => fetch_on) c)).
Proof. exact (fetch_by_position c). Qed.

(** ** More on [execute] *)

(** X4.  The change sets are sound: after any [execute], a register whose
    binding differs from before is in [changed_registers], and a memory
    address whose binding differs is in [changed_memory]. *)
Theorem change_sets_sound (c : CPU) :
  (∀ r, registers (fst (execute c)) !! r ≠ registers c !! r →
        r ∈ changed_registers (fst (execute c))) /\
  (∀ a, memory (fst (execute c)) !! a ≠ memory c !! a →
        a ∈ changed_memory (fst (execute c))).
Proof.
  split.
  - intros r. unfold_methods. split_flow; intros Hdiff;
      try (exfalso; apply Hdiff; reflexivity);
      match goal with
      | H : <[?k := _]> _ !! r ≠ _ |- _ =>
          destruct (decide (k = r)) as [-> | Hne];
          [ set_solver | rewrite lookup_insert_ne in H by exact Hne; contradiction ]
      end.
  - intros a. unfold_methods. split_flow; intros Hdiff;
      try (exfalso; apply Hdiff; reflexivity);
      match goal with
      | H : <[?k := _]> _ !! a ≠ _ |- _ =>
          destruct (decide (k = a)) as [-> | Hne];
          [ set_solver | rewrite lookup_insert_ne in H by exact Hne; contradiction ]
      end.
Qed.

(** A well-formed LOAD, in full. *)
Lemma execute_LOAD_ok (c : CPU) (rd a : string) (addr : Z) :
  parse_addr a = Some addr →
  snd (execute (decoded "LOAD" [rd; a] c)) = true /\
  memory (fst (execute (decoded "LOAD" [rd; a] c))) = memory c /\
  registers (fst (execute (decoded "LOAD" [rd; a] c)))
    = <[rd := default 0 (memory c !! addr)]> (registers c).
Proof.
  intros Ha. unfold_methods. simpl. rewrite Ha. simpl.
  repeat split; reflexivity.
Qed.

(** A well-formed STORE, in full. *)
Lemma execute_STORE_ok (c : CPU) (rs a : string) (addr v : Z) :
  registers c !! rs = Some v → parse_addr a = Some addr →
  snd (execute (decoded "STORE" [rs; a] c)) = true /\
  memory (fst (execute (decoded "STORE" [rs; a] c))) = <[addr := v]> (memory c) /\
  registers (fst (execute (decoded "STORE" [rs; a] c))) = registers c.
Proof.
  intros Hrs Ha. unfold_methods. simpl. rewrite Ha. simpl. rewrite Hrs. simpl.
  repeat split; reflexivity.
Qed.

(** X5.  STORE then LOAD is a round trip: once [STORE rs a] has run, a
    [LOAD rd a'] whose token denotes the same address puts the value of
    [rs] into [rd], whatever the address (inside or outside the initial
    memory range) and however the two tokens are spelled. *)
Theorem store_then_load (c : CPU) (rs rd a a' : string) (addr v : Z) :
  registers c !! rs = Some v →
  parse_addr a = Some addr → parse_addr a' = Some addr →
  let stored := execute (decoded "STORE" [rs; a] c) in
  let loaded := execute (decoded "LOAD" [rd; a'] (fst stored)) in
  snd stored = true /\ snd loaded = true /\
  memory (fst stored) !! addr = Some v /\
  registers (fst loaded) !! rd = Some v /\
  memory (fst loaded) = memory (fst stored).
Proof.
  intros Hrs Ha Ha' stored loaded.
  destruct (execute_STORE_ok c rs a addr v Hrs Ha) as (Hs & Hmem & _).
  destruct (execute_LOAD_ok (fst stored) rd a' addr Ha') as (Hl & Hmem' & Hreg).
  fold stored in Hs, Hmem. fold loaded in Hl, Hmem', Hreg.
  split; [exact Hs|]. split; [exact Hl|].
  split; [rewrite Hmem; apply lookup_insert_eq|].
  split; [|exact Hmem'].
  rewrite Hreg, Hmem. rewrite !lookup_insert_eq. reflexivity.
Qed.

Lemma store_then_load_witness :
  registers
    (fst (execute (decoded "LOAD" ["R4"; "1024"]
       (fst (execute (decoded "STORE" ["R3"; "0x400"]
          (set_registers <["R3" := 30]> new_CPU))))))) !! "R4" = Some 30.
Proof.
  apply (store_then_load (set_registers <["R3" := 30]> new_CPU)
           "R3" "R4" "0x400" "1024" 1024 30);
    vm_compute; reflexivity.
Defined.

(** X6.  LOAD never writes memory, and an address that was never written
    reads as 0: with a well-formed address token, LOAD succeeds, leaves the
    memory map exactly as it was (no cell is created for the address) and
    binds the destination to the cell's value, or to 0 when the address is
    not a key of the memory map. *)
Theorem load_reads_default (c : CPU) (rd a : string) (addr : Z) :
  parse_addr a = Some addr →
  let loaded := execute (decoded "LOAD" [rd; a] c) in
  snd loaded = true /\
  memory (fst loaded) = memory c /\
  registers (fst loaded) = <[rd := default 0 (memory c !! addr)]> (registers c) /\
  (memory c !! addr = None → registers (fst loaded) !! rd = Some 0).
Proof.
  intros Ha loaded.
  destruct (execute_LOAD_ok c rd a addr Ha) as (Hl & Hmem & Hreg).
  fold loaded in Hl, Hmem, Hreg.
  split; [exact Hl|]. split; [exact Hmem|]. split; [exact Hreg|].
  intros Hnone. rewrite Hreg, Hnone. apply lookup_insert_eq.
Qed.

Lemma load_reads_default_witness :
  registers (fst (execute (decoded "LOAD" ["R1"; "0x1000"]
                             (set_registers <["R1" := 7]> new_CPU)))) !! "R1"
  = Some 0.
Proof.
  apply (load_reads_default (set_registers <["R1" := 7]> new_CPU)
           "R1" "0x1000" 4096); vm_compute; reflexivity.
Defined.

(** X7.  STORE writes exactly one cell and nothing else: with a present
    source register and a well-formed address token (of any sign, aligned
    or not, inside the initial range or not) the memory map afterwards is
    the old one with that one address bound to the register's value; every
    other address keeps its binding and the registers are untouched. *)
Theorem store_writes_one_cell (c : CPU) (rs a : string) (addr v : Z) :
  registers c !! rs = Some v → parse_addr a = Some addr →
  let stored := execute (decoded "STORE" [rs; a] c) in
  snd stored = true /\
  memory (fst stored) = <[addr := v]> (memory c) /\
  (∀ b, b ≠ addr → memory (fst stored) !! b = memory c !! b) /\
  registers (fst stored) = registers c.
Proof.
  intros Hrs Ha stored.
  destruct (execute_STORE_ok c rs a addr v Hrs Ha) as (Hs & Hmem & Hreg).
  fold stored in Hs, Hmem, Hreg.
  split; [exact Hs|]. split; [exact Hmem|]. split; [|exact Hreg].
  intros b Hb. rewrite Hmem. apply lookup_insert_ne. congruence.
Qed.

Lemma store_writes_one_cell_witness :
  memory (fst (execute (decoded "STORE" ["R0"; "-3"] new_CPU)))
  = <[-3 := 0]> (memory new_CPU).
Proof.
  apply (store_writes_one_cell new_CPU "R0" "-3" (-3) 0);
    vm_compute; reflexivity.
Defined.

(** What [execute] never touches. *)
Lemma execute_frame (c : CPU) :
  ir (fst (execute c)) = ir c /\
  instructions (fst (execute c)) = instructions c /\
  opcode (fst (execute c)) = opcode c /\
  operands (fst (execute c)) = operands c.
Proof. unfold_methods. split_flow; repeat split; congruence. Qed.

(** X8.  The ALU snapshot is retained: [alu_output] changes only through an
    ADD or SUB that completes successfully; every other instruction, and
    every failing one, leaves the last result in place. *)
Theorem alu_output_retained (c : CPU) :
  alu_output (fst (execute c)) ≠ alu_output c →
  (opcode c = Some "ADD" \/ opcode c = Some "SUB") /\ snd (execute c) = true.
Proof.
  unfold_methods. split_flow; intros Hdiff;
    try (exfalso; apply Hdiff; reflexivity);
    repeat match goal with
           | H : String.eqb _ _ = true |- _ => apply String.eqb_eq in H; subst
           end;
    split; auto.
Qed.

Lemma alu_output_retained_witness :
  (opcode (at_int_max "SUB") = Some "ADD" \/
   opcode (at_int_max "SUB") = Some "SUB") /\
  snd (execute (at_int_max "SUB")) = true.
Proof.
  apply (alu_output_retained (at_int_max "SUB")). vm_compute. discriminate.
Defined.

(** X9.  The stage signals after [execute]: [execute] is on, [fetch] and
    [decode] are off, [writeback] is on exactly when the call returns
    [True], and [memory] can only be on for a LOAD or a STORE.  A STORE with
    a well-formed address that fails on a missing source register, whatever
    its name, has already raised the [memory] signal. *)
Theorem execute_signals (c : CPU) :
  let s := control_signals (fst (execute c)) in
  sig_execute s = true /\ sig_fetch s = false /\ sig_decode s = false /\
  sig_writeback s = snd (execute c) /\
  (sig_memory s = true → opcode c = Some "LOAD" \/ opcode c = Some "STORE") /\
  (∀ rs a addr, opcode c = Some "STORE" → operands c = Some [rs; a] →
     parse_addr a = Some addr → registers c !! rs = None →
     sig_memory s = true /\ snd (execute c) = false).
Proof.
  intros s. subst s.
  split; [|split; [|split; [|split; [|split]]]].
  - unfold_methods. split_flow; reflexivity.
  - unfold_methods. split_flow; reflexivity.
  - unfold_methods. split_flow; reflexivity.
  - unfold_methods. split_flow; reflexivity.
  - unfold_methods. split_flow; intros Hm; try discriminate Hm;
      repeat match goal with
             | H : String.eqb _ _ = true |- _ => apply String.eqb_eq in H; subst
             end; auto.
  - intros rs a addr Hop Hargs Ha Hreg. unfold_methods. simpl.
    rewrite Hop. simpl. rewrite Hargs. simpl. rewrite Ha. simpl.
    rewrite Hreg. simpl. split; reflexivity.
Qed.

(** X10.  An [execute] that returns [False] has changed nothing of the
    data path: registers, memory, program counter and ALU output are as
    before.  This covers HALT, every failure, and the call without a
    decoded opcode. *)
Theorem execute_false_frame (c : CPU) :
  snd (execute c) = false →
  registers (fst (execute c)) = registers c /\
  memory (fst (execute c)) = memory c /\
  pc (fst (execute c)) = pc c /\
  alu_output (fst (execute c)) = alu_output c.
Proof.
  unfold_methods. split_flow; intros Hret; try discriminate Hret;
    repeat split; reflexivity.
Qed.

Lemma execute_false_frame_witness :
  registers (fst (execute (decoded "HALT" ["R1"] new_CPU))) = registers new_CPU /\
  memory (fst (execute (decoded "HALT" ["R1"] new_CPU))) = memory new_CPU /\
  pc (fst (execute (decoded "HALT" ["R1"] new_CPU))) = 0 /\
  alu_output (fst (execute (decoded "HALT" ["R1"] new_CPU))) = 0.
Proof.
  apply (execute_false_frame (decoded "HALT" ["R1"] new_CPU)). reflexivity.
Defined.

(** X11.  With a decoded opcode, [execute] returns [False] exactly when it
    halts the machine: on a machine that is not halted, the flag is set
    afterwards if and only if the call returned [False].  Without a decoded
    opcode the call returns [False] and does not halt. *)
Theorem execute_halts_iff_false (c : CPU) :
  halted c = false →
  (∀ op, opcode c = Some op →
     (halted (fst (execute c)) = true ↔ snd (execute c) = false)) /\
  (opcode c = None →
     halted (fst (execute c)) = false /\ snd (execute c) = false).
Proof.
  intros Hh. split.
  - intros op Hop. unfold_methods. simpl. rewrite Hop. simpl.
    split_flow; split; intros H; try reflexivity; try congruence.
  - intros Hop. unfold_methods. simpl. rewrite Hop. simpl.
    split; [exact Hh | reflexivity].
Qed.

Lemma execute_halts_iff_false_witness :
  halted (fst (execute (decoded "BEQ" ["R1"; "R2"] new_CPU))) = true ↔
  snd (execute (decoded "BEQ" ["R1"; "R2"] new_CPU)) = false.
Proof.
  apply (proj1 (execute_halts_iff_false (decoded "BEQ" ["R1"; "R2"] new_CPU)
                  eq_refl) "BEQ" eq_refl).
Defined.

(** X12.  Only the writing instructions write: if the register map differs
    after [execute], the opcode was ADD, SUB, MOV or LOAD and the call
    succeeded; if the memory map differs, the opcode was STORE and the call
    succeeded; if [pc] differs, the call succeeded.  JUMP, BEQ, NOP and HALT
    therefore never change a register or a memory cell. *)
Theorem execute_writes_only (c : CPU) :
  (registers (fst (execute c)) ≠ registers c →
     ∃ op, opcode c = Some op /\ writes_register op /\ snd (execute c) = true) /\
  (memory (fst (execute c)) ≠ memory c →
     opcode c = Some "STORE" /\ snd (execute c) = true) /\
  (pc (fst (execute c)) ≠ pc c → snd (execute c) = true).
Proof.
  split; [|split].
  - unfold_methods. unfold writes_register. split_flow; intros Hdiff;
      try (exfalso; apply Hdiff; reflexivity);
      repeat match goal with
             | H : String.eqb _ _ = true |- _ => apply String.eqb_eq in H; subst
             end;
      eexists; (split; [reflexivity|]); split; auto.
  - unfold_methods. split_flow; intros Hdiff;
      try (exfalso; apply Hdiff; reflexivity);
      repeat match goal with
             | H : String.eqb _ _ = true |- _ => apply String.eqb_eq in H; subst
             end;
      split; reflexivity.
  - unfold_methods. split_flow; intros Hdiff;
      try (exfalso; apply Hdiff; reflexivity); reflexivity.
Qed.

(** ** Literals *)

(** X13.  Which spellings of a hexadecimal literal are refused.  MOV reads
    its immediate in base 10 only, so an immediate that starts with [0x] or
    [0X] is malformed.  An address is read in base 16 only when the token
    starts with lower-case [0x]: the upper-case prefix [0X] and a signed
    prefix ([-0x], [+0x]) make the token malformed, although [int(s, 16)]
    itself accepts all three spellings. *)
Theorem hex_spellings (s : string) :
  Py.int Py.Dec ("0x" ++ s) = None /\ Py.int Py.Dec ("0X" ++ s) = None /\
  parse_addr ("0X" ++ s) = None /\
  parse_addr ("-0x" ++ s) = None /\ parse_addr ("+0x" ++ s) = None /\
  Py.int Py.Hex "0X1f" = Some 31 /\ Py.int Py.Hex "-0x1f" = Some (-31) /\
  Py.int Py.Hex "+0x1f" = Some 31 /\ parse_addr "0x1f" = Some 31.
Proof.
  repeat split; try reflexivity.
Qed.

(** ** Lifecycle and invariants *)

(** X14.  [reset] followed by [load_program] wipes every trace of the
    past: the machine is the freshly constructed one with the program
    loaded, whatever state it was in, including a decoded instruction that
    [reset] alone would have kept. *)
Theorem reset_then_load_is_fresh (c : CPU) (program : list string) :
  load_program program (reset c) = load_program program new_CPU /\
  opcode (load_program program (reset c)) = None /\
  operands (load_program program (reset c)) = None.
Proof. repeat split. Qed.

(** [execute] never removes a key of the memory map. *)
Lemma execute_keeps_cells (c : CPU) (a : Z) :
  is_Some (memory c !! a) → is_Some (memory (fst (execute c)) !! a).
Proof.
  intros Ha. unfold_methods.
  split_flow; try assumption;
    match goal with
    | |- is_Some (<[?k := _]> _ !! a) =>
        rewrite lookup_insert_is_Some;
        destruct (decide (k = a)); [left | right]; auto
    end.
Qed.

(** X15.  Memory only grows: in every reachable state each of the 64
    word addresses 0, 4, ..., 252 is a key of the memory map, and
    [execute] keeps every key it finds. *)
Theorem memory_keys_only_grow (c : CPU) :
  reachable c →
  (∀ a, 0 <= a < 256 → a mod 4 = 0 → is_Some (memory c !! a)) /\
  dom (memory c) ⊆ dom (memory (fst (execute c))).
Proof.
  intros Hreach. split.
  - induction Hreach as [|c _ _|c p _ IH|c _ IH|c _ IH|c _ IH];
      intros a Hrange Hmod.
    + destruct (reset_clears blank) as (_ & Hmem & _).
      unfold new_CPU. rewrite Hmem. rewrite decide_True by tauto. eauto.
    + destruct (reset_clears c) as (_ & Hmem & _).
      rewrite Hmem. rewrite decide_True by tauto. eauto.
    + simpl. apply IH; assumption.
    + destruct (fetch_frame c) as (_ & -> & _). apply IH; assumption.
    + destruct (decode_frame c) as (_ & -> & _). apply IH; assumption.
    + apply execute_keeps_cells. apply IH; assumption.
  - intros a. rewrite !elem_of_dom. apply execute_keeps_cells.
Qed.

Lemma memory_keys_only_grow_witness :
  is_Some (memory after_mov_r9 !! 252).
Proof.
  assert (reachable after_mov_r9) as Hreach.
  { unfold after_mov_r9, cycle.
    apply reach_execute, reach_decode, reach_fetch, reach_load, reach_new. }
  apply (proj1 (memory_keys_only_grow after_mov_r9 Hreach)).
  - lia.
  - reflexivity.
Defined.

(** [fetch] does not touch the decoded instruction. *)
Lemma fetch_keeps_decoded (c : CPU) :
  opcode (state_of (fetch c)) = opcode c /\
  operands (state_of (fetch c)) = operands c.
Proof. unfold_methods. split_flow; split; reflexivity. Qed.

Lemma decode_well_formed (c : CPU) :
  decoded_well_formed c → decoded_well_formed (state_of (decode c)).
Proof.
  intros Hwf.
  destruct (value_of (decode c)) as [[|]|] eqn:Hv.
  - right. apply decode_gives_tokens. exact Hv.
  - assert (opcode (state_of (decode c)) = opcode c /\
            operands (state_of (decode c)) = operands c) as [Ho Ha].
    { revert Hv. unfold_methods. split_flow; intros; try discriminate;
        split; reflexivity. }
    unfold decoded_well_formed. rewrite Ho, Ha. exact Hwf.
  - assert (opcode (state_of (decode c)) = opcode c /\
            operands (state_of (decode c)) = operands c) as [Ho Ha].
    { revert Hv. unfold_methods. split_flow; intros; try discriminate;
        split; reflexivity. }
    unfold decoded_well_formed. rewrite Ho, Ha. exact Hwf.
Qed.

(** X16.  The decoded instruction is all or nothing: in every reachable
    state [opcode] and [operands] are either both absent or both present,
    and when present the opcode is a non-empty upper-case token and every
    operand a non-empty token without blanks.  So [execute] never meets a
    missing [operands] attribute or an opcode in lower case. *)
Theorem decoded_instruction_invariant (c : CPU) :
  reachable c →
  (opcode c = None /\ operands c = None) \/
  (∃ op args, opcode c = Some op /\ operands c = Some args /\
     is_token op /\ Py.upper op = op /\ Forall is_token args).
Proof.
  intros Hreach. change (decoded_well_formed c).
  induction Hreach as [|c _ IH|c p _ _|c _ IH|c _ IH|c _ IH].
  - left. split; reflexivity.
  - exact IH.
  - left. split; reflexivity.
  - destruct (fetch_keeps_decoded c) as [Ho Ha].
    unfold decoded_well_formed. rewrite Ho, Ha. exact IH.
  - apply decode_well_formed. exact IH.
  - destruct (execute_frame c) as (_ & _ & Ho & Ha).
    unfold decoded_well_formed. rewrite Ho, Ha. exact IH.
Qed.

Lemma decoded_instruction_invariant_witness :
  (opcode ran_off_end = None /\ operands ran_off_end = None) \/
  (∃ op args, opcode ran_off_end = Some op /\ operands ran_off_end = Some args /\
     is_token op /\ Py.upper op = op /\ Forall is_token args).
Proof.
  apply (decoded_instruction_invariant ran_off_end).
  unfold ran_off_end, cycle.
  apply reach_fetch.
  apply reach_execute, reach_decode, reach_fetch.
  apply reach_execute, reach_decode, reach_fetch.
  apply reach_load, reach_new.
Defined.

(** ** The program-counter override *)

(** X17.  [update_pc] accepts a value only inside the program: outside
    [0, len) it leaves the machine exactly as it is; inside, it sets [pc],
    empties [ir] and deletes the decoded instruction.  In both cases
    registers, memory, program, ALU output, change sets and the halted flag
    are untouched, so it cannot restart a halted machine: [step] is still a
    no-op afterwards. *)
Theorem update_pc_guard (c : CPU) (value : Z) :
  let c' := CPUSimulatorGUI.update_pc value c in
  (value < 0 \/ Z.of_nat (length (instructions c)) <= value → c' = c) /\
  (0 <= value < Z.of_nat (length (instructions c)) →
     pc c' = value /\ ir c' = None /\ opcode c' = None /\ operands c' = None) /\
  registers c' = registers c /\ memory c' = memory c /\
  instructions c' = instructions c /\ alu_output c' = alu_output c /\
  changed_registers c' = changed_registers c /\
  changed_memory c' = changed_memory c /\
  halted c' = halted c /\
  (halted c = true → CPUSimulatorGUI.step c' = c').
Proof.
  intros c'. subst c'. unfold CPUSimulatorGUI.update_pc.
  split; [|split].
  - intros Hout. decide_bounds; reflexivity.
  - intros Hin. decide_bounds; repeat split; reflexivity.
  - destruct ((0 <=? value) && (value <? Z.of_nat (length (instructions c))));
      simpl; repeat split; try reflexivity;
      intros Hh; unfold CPUSimulatorGUI.step; simpl; rewrite Hh; reflexivity.
Qed.

(** ** The clean-up of generated text *)

Example cleanup_fenced :
  Cleanup.clean_instructions
    (String.concat (String Cleanup.newline "")
       ["```assembly"; "1: MOV R1 5"; "  # setup"; "";
        "ADD R2 R1 R1 # double"; "HALT"; "```"])
  = ["MOV R1 5"; "ADD R2 R1 R1"; "HALT"].
Proof. vm_compute. reflexivity. Qed.

Example cleanup_plain :
  Cleanup.generated_instructions
    (String.concat (String Cleanup.newline "") ["  "; "# nothing"; ""]) = None /\
  Cleanup.clean_instructions "``````" = [] /\
  Cleanup.clean_instructions "`````" = [] /\
  Cleanup.clean_instructions "12 : NOP" = ["NOP"] /\
  Cleanup.clean_instructions "x: NOP" = ["x: NOP"] /\
  Cleanup.clean_instructions "MOV R1 5#c" = ["MOV R1 5"].
Proof. vm_compute. repeat split; reflexivity. Qed.



















(** ** How the stages compose *)

(** X19.  [fetch] and [decode] are idempotent: calling either a second
    time right after the first gives the same outcome and the same state,
    whether the first call returned [True], returned [False] or raised. *)
Theorem stages_idempotent (c : CPU) :
  fetch (state_of (fetch c)) = fetch c /\
  decode (state_of (decode c)) = decode c.
Proof.
  split.
  - unfold_methods. split_flow; try congruence; reflexivity.
  - unfold_methods. split_flow; try congruence; reflexivity.
Qed.

(** [execute] neither reads nor writes the instruction register. *)
Lemma execute_set_ir (c : CPU) (i : option string) :
  execute (set_ir i c) = (set_ir i (fst (execute c)), snd (execute c)).
Proof.
  unfold_methods. simpl. split_flow; try congruence; simplify_eq; reflexivity.
Qed.

(** X20.  Instruction text is insensitive to the case of the opcode and to
    its layout: two lines whose tokens agree, up to the case of the first
    token and whatever blanks separate them, decode and execute to the same
    outcome and the same machine state (the raw text kept in [ir] apart).
    Operand tokens are compared as they are, so register names remain
    case-sensitive. *)
Theorem opcode_case_and_layout (c : CPU) (l1 l2 t1 t2 : string)
    (args : list string) :
  Py.split l1 = t1 :: args → Py.split l2 = t2 :: args →
  Py.upper t1 = Py.upper t2 →
  let run l := execute (state_of (decode (set_ir (Some l) c))) in
  snd (run l1) = snd (run l2) /\
  set_ir None (fst (run l1)) = set_ir None (fst (run l2)).
Proof.
  intros H1 H2 Hup run. subst run.
  assert (l1 ≠ "") as Hne1 by (intros ->; discriminate H1).
  assert (l2 ≠ "") as Hne2 by (intros ->; discriminate H2).
  destruct (decode_cases (set_ir (Some l1) c)) as (_ & Hd1 & _).
  destruct (decode_cases (set_ir (Some l2) c)) as (_ & Hd2 & _).
  rewrite (Hd1 l1 t1 args eq_refl Hne1 H1), (Hd2 l2 t2 args eq_refl Hne2 H2).
  simpl state_of. rewrite Hup.
  set (d := set_operands (Some args) (set_opcode (Some (Py.upper t2))
              (set_control_signals (fun _ => decode_on) c))).
  change (snd (execute (set_ir (Some l1) d)) = snd (execute (set_ir (Some l2) d)) /\
          set_ir None (fst (execute (set_ir (Some l1) d)))
          = set_ir None (fst (execute (set_ir (Some l2) d)))).
  rewrite !execute_set_ir. split; reflexivity.
Qed.

Lemma opcode_case_and_layout_witness :
  set_ir None (fst (execute (state_of (decode
     (set_ir (Some "mov   R1	5 ") new_CPU)))))
  = set_ir None (fst (execute (state_of (decode
     (set_ir (Some "MOV R1 5") new_CPU))))).
Proof.
  apply (opcode_case_and_layout new_CPU "mov   R1	5 " "MOV R1 5"
           "mov" "MOV" ["R1"; "5"]); reflexivity.
Defined.

(** A well-formed JUMP, in full. *)
Lemma execute_JUMP_ok (c : CPU) (a : string) (rest : list string) (A : Z) :
  opcode c = Some "JUMP" → operands c = Some (a :: rest) →
  parse_addr a = Some A →
  pc (fst (execute c)) = A /\ instructions (fst (execute c)) = instructions c /\
  halted (fst (execute c)) = halted c /\ snd (execute c) = true.
Proof.
  intros Hop Hargs Ha. unfold_methods. simpl. rewrite Hop. simpl.
  rewrite Hargs. simpl. rewrite Ha. simpl.
  repeat split; try reflexivity. lia.
Qed.

(** X21.  What a JUMP target means for the next [fetch].  After a JUMP to
    [A]: a target at or past the end of the program makes the next [fetch]
    halt the machine; a target inside the program makes it load line [A]; a
    negative target down to minus the program length loads the line counted
    from the end; a target below that makes [fetch] raise [IndexError]. *)
Theorem jump_then_fetch (c : CPU) (a : string) (rest : list string) (A : Z) :
  opcode c = Some "JUMP" → operands c = Some (a :: rest) →
  parse_addr a = Some A →
  let n := Z.of_nat (length (instructions c)) in
  let jumped := fst (execute c) in
  (n <= A → fetch jumped = Ok false (set_halted true jumped)) /\
  (0 <= A < n →
     ∃ line, instructions c !! Z.to_nat A = Some line /\
             ir (state_of (fetch jumped)) = Some line /\
             value_of (fetch jumped) = Some true) /\
  (- n <= A < 0 →
     ∃ line, instructions c !! Z.to_nat (n + A) = Some line /\
             ir (state_of (fetch jumped)) = Some line /\
             value_of (fetch jumped) = Some true) /\
  (A < - n → value_of (fetch jumped) = None).
Proof.
  intros Hop Hargs Ha n jumped.
  destruct (execute_JUMP_ok c a rest A Hop Hargs Ha) as (Hpc & Hprog & _).
  fold jumped in Hpc, Hprog.
  pose proof (fetch_by_position jumped) as Hfetch. simpl in Hfetch.
  rewrite Hpc, Hprog in Hfetch. fold n in Hfetch.
  destruct Hfetch as (Hend & Hin & Hneg & Hlow).
  split; [exact Hend|]. split; [|split].
  - intros HA. destruct (Hin HA) as (line & Hline & ->).
    exists line. repeat split. exact Hline.
  - intros HA. destruct (Hneg HA) as (line & Hline & ->).
    exists line. repeat split. exact Hline.
  - intros HA. rewrite (Hlow HA). reflexivity.
Qed.

Lemma jump_then_fetch_witness :
  ∃ line, instructions (decoded "JUMP" ["-1"]
                          (load_program sample_program new_CPU))
            !! Z.to_nat (10 + -1) = Some line /\
          ir (state_of (fetch (fst (execute (decoded "JUMP" ["-1"]
                (load_program sample_program new_CPU)))))) = Some line /\
          value_of (fetch (fst (execute (decoded "JUMP" ["-1"]
                (load_program sample_program new_CPU))))) = Some true.
Proof.
  apply (proj1 (proj2 (proj2
           (jump_then_fetch (decoded "JUMP" ["-1"]
                               (load_program sample_program new_CPU))
              "-1" [] (-1) eq_refl eq_refl eq_refl)))).
  simpl. lia.
Defined.

(** X22.  The program-counter override forces a re-fetch of the chosen
    line: after [update_pc] with a value inside the program, the next
    [fetch] returns [True] and loads exactly that line, whatever was in
    [ir] or decoded before. *)
Theorem update_pc_then_fetch (c : CPU) (value : Z) :
  0 <= value < Z.of_nat (length (instructions c)) →
  ∃ line, instructions c !! Z.to_nat value = Some line /\
          value_of (fetch (CPUSimulatorGUI.update_pc value c)) = Some true /\
          ir (state_of (fetch (CPUSimulatorGUI.update_pc value c))) = Some line /\
          opcode (state_of (fetch (CPUSimulatorGUI.update_pc value c))) = None.
Proof.
  intros Hin.
  pose proof (fetch_by_position (CPUSimulatorGUI.update_pc value c))
    as (_ & Hfetch & _).
  assert (CPUSimulatorGUI.update_pc value c
          = set_operands None (set_opcode None (set_ir None (set_pc value c))))
    as Hupd.
  { unfold CPUSimulatorGUI.update_pc. decide_bounds; reflexivity. }
  rewrite Hupd in *. simpl in Hfetch.
  destruct (Hfetch Hin) as (line & Hline & ->).
  exists line. repeat split. exact Hline.
Qed.

Lemma update_pc_then_fetch_witness :
  ∃ line, instructions (load_program sample_program new_CPU) !! Z.to_nat 8
            = Some line /\
          value_of (fetch (CPUSimulatorGUI.update_pc 8
                             (load_program sample_program new_CPU))) = Some true /\
          ir (state_of (fetch (CPUSimulatorGUI.update_pc 8
                                 (load_program sample_program new_CPU)))) = Some line /\
          opcode (state_of (fetch (CPUSimulatorGUI.update_pc 8
                                     (load_program sample_program new_CPU)))) = None.
Proof.
  apply (update_pc_then_fetch (load_program sample_program new_CPU) 8).
  simpl. lia.
Defined.
